(** * NeatPy: the three text-cleaning operations of [neatpy/_NeatPy.py]

    A shallow embedding of [to_integer], [to_text] and [to_specialChr]
    together with the parts of Python ([str], [re], [int], [float]) and of
    pandas ([Series.str.replace], [Series.astype], [Series.apply]) that the
    three functions call, followed by the properties of the operations. *)

From Stdlib Require Import ZArith List String Ascii Bool Lia.
From Stdlib Require Import Floats.SpecFloat Numbers.DecimalString Numbers.DecimalZ.
From stdpp Require Import base option list gmap.

Local Open Scope Z_scope.

(** ** Python text *)

(** A Python [str] is a sequence of Unicode code points; [ord] of a
    character is a Python integer. *)
Abbreviation codepoint := Z (only parsing).
Abbreviation str := (list Z) (only parsing).

(** Literals of this development are ASCII: [py "ab"] is the [str] "ab". *)
Definition py (s : string) : str :=
  (fun a => Z.of_N (N_of_ascii a)) <$> list_ascii_of_string s.

Definition in_range (lo hi c : codepoint) : bool := (lo <=? c) && (c <=? hi).

Definition is_ascii_digit (c : codepoint) : bool := in_range 48 57 c.
Definition is_ascii_lower (c : codepoint) : bool := in_range 97 122 c.
Definition is_ascii_upper (c : codepoint) : bool := in_range 65 90 c.
Definition is_ascii_letter (c : codepoint) : bool :=
  is_ascii_lower c || is_ascii_upper c.
Definition is_ascii (c : codepoint) : bool := in_range 0 127 c.

(** [string.punctuation], the 32 ASCII punctuation characters in code
    order; the second one is the double quote, code point 34. *)
Definition string_punctuation : str :=
  py "!" ++ [34] ++ py "#$%&'()*+,-./:;<=>?@[\]^_`{|}~".

(** *** Unicode decimal digits

    The code points of general category Nd (Unicode 14), as the runs in
    which they are allocated.  Every run starts at a digit zero and holds
    whole decades, so the value of a digit is its offset modulo ten.  This
    is the class that [Py_UNICODE_ISDECIMAL] tests and that [\d] denotes in
    a [str] pattern. *)
Definition unicode_Nd : list (codepoint * codepoint) :=
  [ (0x30, 0x39); (0x660, 0x669); (0x6f0, 0x6f9); (0x7c0, 0x7c9);
    (0x966, 0x96f); (0x9e6, 0x9ef); (0xa66, 0xa6f); (0xae6, 0xaef);
    (0xb66, 0xb6f); (0xbe6, 0xbef); (0xc66, 0xc6f); (0xce6, 0xcef);
    (0xd66, 0xd6f); (0xde6, 0xdef); (0xe50, 0xe59); (0xed0, 0xed9);
    (0xf20, 0xf29); (0x1040, 0x1049); (0x1090, 0x1099); (0x17e0, 0x17e9);
    (0x1810, 0x1819); (0x1946, 0x194f); (0x19d0, 0x19d9); (0x1a80, 0x1a89);
    (0x1a90, 0x1a99); (0x1b50, 0x1b59); (0x1bb0, 0x1bb9); (0x1c40, 0x1c49);
    (0x1c50, 0x1c59); (0xa620, 0xa629); (0xa8d0, 0xa8d9); (0xa900, 0xa909);
    (0xa9d0, 0xa9d9); (0xa9f0, 0xa9f9); (0xaa50, 0xaa59); (0xabf0, 0xabf9);
    (0xff10, 0xff19); (0x104a0, 0x104a9); (0x10d30, 0x10d39);
    (0x11066, 0x1106f); (0x110f0, 0x110f9); (0x11136, 0x1113f);
    (0x111d0, 0x111d9); (0x112f0, 0x112f9); (0x11450, 0x11459);
    (0x114d0, 0x114d9); (0x11650, 0x11659); (0x116c0, 0x116c9);
    (0x11730, 0x11739); (0x118e0, 0x118e9); (0x11950, 0x11959);
    (0x11c50, 0x11c59); (0x11d50, 0x11d59); (0x11da0, 0x11da9);
    (0x16a60, 0x16a69); (0x16ac0, 0x16ac9); (0x16b50, 0x16b59);
    (0x1d7ce, 0x1d7ff); (0x1e140, 0x1e149); (0x1e2f0, 0x1e2f9);
    (0x1e950, 0x1e959); (0x1fbf0, 0x1fbf9) ].

(** The decimal value of a character, when it is a decimal digit. *)
Fixpoint decimal_in (runs : list (codepoint * codepoint)) (c : codepoint)
  : option Z :=
  match runs with
  | [] => None
  | (lo, hi) :: runs' =>
      if in_range lo hi c then Some ((c - lo) mod 10) else decimal_in runs' c
  end.

Definition unicode_decimal (c : codepoint) : option Z := decimal_in unicode_Nd c.

Definition Py_UNICODE_ISDECIMAL (c : codepoint) : bool :=
  bool_decide (is_Some (unicode_decimal c)).

(** *** The [re] module, for patterns of one character class

    Both patterns of the module are a single class: [\D], and the set
    [[a-z0-9]] compiled with [re.IGNORECASE].  The patterns are [str]
    patterns, so matching is Unicode matching. *)
Inductive charclass : Type :=
  | NotDigit                                         (* \D *)
  | CharSet (ranges : list (codepoint * codepoint)). (* [a-b...] *)

Record pattern : Type := Pattern {
  pat_class : charclass;
  pat_ignorecase : bool
}.

(** The simple lower-case mapping, on the code points whose image is an
    ASCII letter: the capitals A-Z, U+0130 (capital I with dot above, to i)
    and U+212A (Kelvin sign, to k).  No other code point has a lower-case
    form in ASCII; the lower-case form of the remaining cased letters is
    never looked up in a class that this module compiles and is left out. *)
Definition sre_lower_unicode (c : codepoint) : codepoint :=
  if is_ascii_upper c then c + 32
  else if c =? 0x130 then 0x69
  else if c =? 0x212A then 0x6B
  else c.

(** [sre_compile._ignorecase_fixes], for the ASCII letters: characters that
    are case-insensitively equal to a letter without lower-casing to it,
    U+0131 (dotless i) for i and U+017F (long s) for s. *)
Definition ignorecase_fixes (c : codepoint) : list codepoint :=
  if c =? 0x69 then [0x131] else if c =? 0x73 then [0x17F] else [].

Definition in_ranges (ranges : list (codepoint * codepoint)) (c : codepoint)
  : bool :=
  existsb (fun r => in_range r.1 r.2 c) ranges.

Definition range_members (r : codepoint * codepoint) : list codepoint :=
  seqZ r.1 (r.2 - r.1 + 1).

(** The set that the compiler stores for the ranges of a class under
    [IGNORECASE] ([sre_compile._optimize_charset]): every member of a
    range, lower-cased, and the fixes of that lower-case character. *)
Definition folded_charset (ranges : list (codepoint * codepoint))
  : list codepoint :=
  (ranges ≫= range_members) ≫=
    (fun i => let lo := sre_lower_unicode i in lo :: ignorecase_fixes lo).

(** A character matches [\D] when it is no decimal digit; it matches a set
    when it lies in a range, and under [IGNORECASE] when its lower-case
    form lies in the folded set. *)
Definition class_matches (p : pattern) (c : codepoint) : bool :=
  match pat_class p with
  | NotDigit => negb (Py_UNICODE_ISDECIMAL c)
  | CharSet ranges =>
      if pat_ignorecase p
      then bool_decide (sre_lower_unicode c ∈ folded_charset ranges)
      else in_ranges ranges c
  end.

(** [re.sub(pattern, repl, x)] for a one-character pattern: the matches are
    the single characters of the class, each replaced by [repl]. *)
Definition re_sub (p : pattern) (repl : str) (x : str) : str :=
  x ≫= (fun c => if class_matches p c then repl else [c]).

(** *** Methods of [str] *)

Fixpoint startswith (x old : str) {struct old} : bool :=
  match old, x with
  | [], _ => true
  | _ :: _, [] => false
  | o :: old', c :: x' => (c =? o) && startswith x' old'
  end.

(** [old in x] *)
Fixpoint str_contains (x old : str) : bool :=
  startswith x old ||
  match x with
  | [] => false
  | _ :: x' => str_contains x' old
  end.

(** The scan of [str.replace] for a non-empty [old]: at an occurrence of
    [old] emit [new] and skip the occurrence, otherwise copy a character.
    [skip] counts the characters of the current occurrence still to pass. *)
Fixpoint replace_scan (old new : str) (skip : nat) (x : str) : str :=
  match x with
  | [] => []
  | c :: x' =>
      match skip with
      | S k => replace_scan old new k x'
      | O =>
          if startswith x old
          then new ++ replace_scan old new (Nat.pred (length old)) x'
          else c :: replace_scan old new O x'
      end
  end.

(** [x.replace(old, new)]: every non-overlapping occurrence, from the left;
    an empty [old] matches before every character and at the end. *)
Definition str_replace (x old new : str) : str :=
  match old with
  | [] => new ++ (x ≫= (fun c => c :: new))
  | _ :: _ => replace_scan old new O x
  end.

(** [str(n)] for an [int]. *)
Definition str_of_int (n : Z) : str :=
  py (NilEmpty.string_of_int (Z.to_int n)).

(** ** Numbers *)

(** The elements of a numeric column: Python integers (of the width of the
    column) and IEEE 754 binary64 floats. *)
Inductive num : Type :=
  | NInt (z : Z)
  | NFloat (f : spec_float).

(** The value of a string of decimal digits, most significant first. *)
Fixpoint digits_value (acc : Z) (x : str) : option Z :=
  match x with
  | [] => Some acc
  | c :: x' =>
      match unicode_decimal c with
      | Some d => digits_value (10 * acc + d) x'
      | None => None
      end
  end.

(** [int(x)] and [float(x)] on text made of decimal digits only: the empty
    text has no value.  Python also reads a sign, blanks around the number
    and underscores between digits; the text that [to_integer] casts holds
    none of them, and they are not modelled, nor is the bound that recent
    interpreters put on the number of digits of an integer literal. *)
Definition int_of_digits (x : str) : option Z :=
  match x with
  | [] => None
  | _ :: _ => digits_value 0 x
  end.

(** The binary64 float nearest to an integer (ties to even; infinite when
    out of range). *)
Definition float_of_Z (z : Z) : spec_float := binary_normalize 53 1024 z 0 false.

(** ** Exceptions and results *)

Inductive exn : Type := ValueError | OverflowError | AttributeError | TypeError.

Inductive result (A : Type) : Type :=
  | Ok (a : A)
  | Err (e : exn).
Arguments Ok {A} a.
Arguments Err {A} e.

Definition result_bind {A B} (r : result A) (k : A -> result B) : result B :=
  match r with
  | Ok a => k a
  | Err e => Err e
  end.

(** Element-wise evaluation in index order; the first failure is raised. *)
Fixpoint result_mapM {A B} (f : A -> result B) (l : list A) : result (list B) :=
  match l with
  | [] => Ok []
  | a :: l' =>
      result_bind (f a) (fun b =>
      result_bind (result_mapM f l') (fun bs => Ok (b :: bs)))
  end.

(** ** Target types of [astype]

    A target type is given by what it makes of a text element.  [int] is
    the C long of the platform: a text without value raises [ValueError],
    a value that does not fit raises [OverflowError]. *)
Record Dtype : Type := MkDtype {
  astype_str : str -> result num
}.

Definition np_int (bits : Z) : Dtype :=
  MkDtype (fun x =>
    match int_of_digits x with
    | None => Err ValueError
    | Some z =>
        if (- 2 ^ (bits - 1) <=? z) && (z <? 2 ^ (bits - 1))
        then Ok (NInt z) else Err OverflowError
    end).

Definition dtype_int : Dtype := np_int 64.

Definition dtype_float : Dtype :=
  MkDtype (fun x =>
    match int_of_digits x with
    | None => Err ValueError
    | Some z => Ok (NFloat (float_of_Z z))
    end).

(** ** pandas columns

    A [Series] pairs every element with its index label; labels need not
    be distinct and their order is the order of the column.  The module
    documents its input as a Series containing strings; the result of a
    cast is a numeric column.  The elements of a text column are [str]
    objects, and the [str] accessor rewrites them with the [re] module. *)
Inductive label : Type :=
  | LInt (i : Z)
  | LStr (s : str).

Inductive Series : Type :=
  | TextSeries (rows : list (label * str))
  | NumSeries (rows : list (label * num)).

Definition Series_index (s : Series) : list label :=
  match s with
  | TextSeries rows => rows.*1
  | NumSeries rows => rows.*1
  end.

Definition Series_len (s : Series) : nat := length (Series_index s).

(** [pd.Series(l)]: the default index 0, 1, 2, ... *)
Definition pd_Series (l : list str) : Series :=
  TextSeries (zip (LInt <$> seqZ 0 (Z.of_nat (length l))) l).

(** What a lambda passed to [apply] receives. *)
Inductive pyval : Type :=
  | VStr (x : str)
  | VNum (n : num).

(** ** The object store

    Columns are objects: a variable holds a reference, and a method that
    returns a new column allocates it.  A computation runs on a store and
    returns a value, or raises a Python exception, or is [Stuck] when it
    leaves what is modelled (a reference to no object). *)
Abbreviation loc := nat (only parsing).
Abbreviation heap := (list Series) (only parsing).

Inductive outcome (A : Type) : Type :=
  | Return (a : A) (h : heap)
  | Raise (e : exn) (h : heap)
  | Stuck.
Arguments Return {A} a h.
Arguments Raise {A} e h.
Arguments Stuck {A}.

Definition M (A : Type) : Type := heap -> outcome A.

Definition ret {A} (a : A) : M A := fun h => Return a h.

Definition bind {A B} (m : M A) (k : A -> M B) : M B :=
  fun h =>
    match m h with
    | Return a h' => k a h'
    | Raise e h' => Raise e h'
    | Stuck => Stuck
    end.

Notation "'do' x <- m ; k" := (bind m (fun x => k))
  (at level 10, x name, m at level 100, k at level 200).

Definition raise {A} (e : exn) : M A := fun h => Raise e h.

Definition lift {A} (r : result A) : M A :=
  match r with
  | Ok a => ret a
  | Err e => raise e
  end.

Definition deref (l : loc) : M Series :=
  fun h =>
    match h !! l with
    | Some s => Return s h
    | None => Stuck
    end.

Definition new (s : Series) : M loc := fun h => Return (length h) (h ++ [s]).

Definition rows_map {A B} (g : A -> B) (rows : list (label * A))
  : list (label * B) :=
  prod_map id g <$> rows.

Definition rows_mapM {A B} (f : A -> result B) (rows : list (label * A))
  : result (list (label * B)) :=
  result_mapM (fun r => result_bind (f r.2) (fun b => Ok (r.1, b))) rows.

(** [series.str.replace(pat, repl, regex=True)]: a new column of the
    rewritten elements; a numeric column has no [str] accessor. *)
Definition Series_str_replace (series : loc) (pat : pattern) (repl : str)
  : M loc :=
  do s <- deref series ;
  match s with
  | TextSeries rows => new (TextSeries (rows_map (re_sub pat repl) rows))
  | NumSeries _ => raise AttributeError
  end.

(** [series.astype(dtype)] on a text column: a new numeric column, or the
    exception of the first element that cannot be cast.  No operation of
    the module casts a numeric column, which is left out. *)
Definition Series_astype (series : loc) (dtype : Dtype) : M loc :=
  do s <- deref series ;
  match s with
  | TextSeries rows =>
      do rows' <- lift (rows_mapM (astype_str dtype) rows) ;
      new (NumSeries rows')
  | NumSeries _ => fun _ => Stuck
  end.

(** [series.apply(f)] for a function with text results: a new column with
    the index of the old one, or the exception of the first element on
    which [f] fails.  An empty column keeps its type. *)
Definition Series_apply (series : loc) (f : pyval -> result str) : M loc :=
  do s <- deref series ;
  match s with
  | TextSeries rows =>
      do rows' <- lift (rows_mapM (fun x => f (VStr x)) rows) ;
      new (TextSeries rows')
  | NumSeries [] => new (NumSeries [])
  | NumSeries rows =>
      do rows' <- lift (rows_mapM (fun n => f (VNum n)) rows) ;
      new (TextSeries rows')
  end.

(** ** Translation tables

    [str.maketrans(x, y, z)] is a dictionary from code points: the
    characters of [x] go to those of [y], and then those of [z] go to
    [None].  [x] and [y] must have equal length. *)
Definition str_maketrans (x y z : str) : result (gmap Z (option Z)) :=
  if bool_decide (length x = length y)
  then Ok (foldl (fun t c => <[c := None]> t)
             (foldl (fun t p => <[p.1 := Some p.2]> t) ∅ (zip x y)) z)
  else Err ValueError.

(** [x.translate(table)]: a character mapped to [None] is deleted, one
    mapped to a code point is replaced, one without entry is kept. *)
Definition str_translate (x : str) (table : gmap Z (option Z)) : str :=
  x ≫= (fun c =>
    match table !! c with
    | Some None => []
    | Some (Some d) => [d]
    | None => [c]
    end).

(** ** The module *)

(** [to_integer(series, dtype=float)]; [None] is the omitted argument. *)
Definition to_integer (series : loc) (dtype : option Dtype) : M loc :=
  let dtype := default dtype_float dtype in
  do cleaned <- Series_str_replace series (Pattern NotDigit false) [] ;
  Series_astype cleaned dtype.

(** The arguments [keep] (None, a string, or a list of strings) and
    [keep_num] (None, an integer, or a list of integers) of [to_text]. *)
Inductive keep_arg : Type :=
  | KeepNone
  | KeepStr (k : str)
  | KeepList (ks : list str).

Inductive keep_num_arg : Type :=
  | KeepNumNone
  | KeepNumInt (n : Z)
  | KeepNumList (ns : list Z).

(** Truth value of the arguments: [None], the empty string, the empty
    list and the integer 0 are false. *)
Definition keep_truthy (keep : keep_arg) : bool :=
  match keep with
  | KeepNone | KeepStr [] | KeepList [] => false
  | _ => true
  end.

Definition keep_num_truthy (keep_num : keep_num_arg) : bool :=
  match keep_num with
  | KeepNumNone | KeepNumInt 0 | KeepNumList [] => false
  | _ => true
  end.

(** Lines 94-110 of [to_text]: the characters to delete. *)
Definition punct_numbers (punct : bool) (keep : keep_arg)
  (keep_num : keep_num_arg) : str :=
  let numbers := py "0123456789" in
  let punctuation := string_punctuation in
  let punctuation :=
    if keep_truthy keep then
      match keep with
      | KeepStr k => str_replace punctuation k []
      | KeepList ks =>
          foldl (fun punctuation keep_str => str_replace punctuation keep_str [])
            punctuation ks
      | KeepNone => punctuation
      end
    else punctuation in
  let numbers :=
    if keep_num_truthy keep_num then
      match keep_num with
      | KeepNumInt n => str_replace numbers (str_of_int n) []
      | KeepNumList ns =>
          foldl (fun numbers num => str_replace numbers (str_of_int num) [])
            numbers ns
      | KeepNumNone => numbers
      end
    else numbers in
  if punct then punctuation ++ numbers else numbers.

(** [to_text(series, punct=True, keep=None, keep_num=None)], line 111: the
    lambda looks up [translate] on the element, which only text has, and
    builds the table at every element. *)
Definition to_text (series : loc) (punct : bool) (keep : keep_arg)
  (keep_num : keep_num_arg) : M loc :=
  let punct_numbers := punct_numbers punct keep keep_num in
  Series_apply series (fun x =>
    match x with
    | VStr x =>
        result_bind (str_maketrans [] [] punct_numbers) (fun table =>
        Ok (str_translate x table))
    | VNum _ => Err AttributeError
    end).

(** [to_specialChr(series)]; [re.sub] accepts text only. *)
Definition to_specialChr (series : loc) : M loc :=
  let pattern := Pattern (CharSet [(97, 122); (48, 57)]) true in
  Series_apply series (fun x =>
    match x with
    | VStr x => Ok (re_sub pattern [] x)
    | VNum _ => Err TypeError
    end).

(** ** Vocabulary of the properties *)

Definition result_map {A B} (g : A -> B) (r : result A) : result B :=
  match r with
  | Ok a => Ok (g a)
  | Err e => Err e
  end.

(** What the caller of an operation observes: the column behind the
    returned reference, or the exception. *)
Definition returned (o : outcome loc) : option (result Series) :=
  match o with
  | Return l h => Ok <$> h !! l
  | Raise e _ => Some (Err e)
  | Stuck => None
  end.

(** The characters that [to_specialChr] deletes besides the ASCII letters
    and digits. *)
Definition folds_to_ascii_letter (c : codepoint) : bool :=
  bool_decide (c ∈ [0x130; 0x131; 0x17F; 0x212A]).

Definition is_ascii_alnum (c : codepoint) : bool :=
  is_ascii_letter c || is_ascii_digit c.

(** What [to_specialChr] deletes from an element, and what a filter of the
    ASCII letters and digits alone would delete. *)
Definition delete_alnum (x : str) : str :=
  filter (fun c => ¬ (is_ascii_alnum c || folds_to_ascii_letter c)) x.

Definition delete_ascii_alnum (x : str) : str :=
  filter (fun c => ¬ is_ascii_alnum c) x.

(** An operation leaves every column of the store as it was, the input
    among them, and the column it returns has the index, hence the length,
    of its input. *)
Definition preserves_input_and_index (op : loc -> M loc) : Prop :=
  forall (h : heap) (series : loc) (s : Series),
    h !! series = Some s ->
    match op series h with
    | Return l h' =>
        h `prefix_of` h' /\ h' !! series = Some s /\
        exists s', h' !! l = Some s' /\
          Series_index s' = Series_index s /\ Series_len s' = Series_len s
    | Raise _ h' => h `prefix_of` h' /\ h' !! series = Some s
    | Stuck => False
    end.

(** An operation produces a column from every column of text. *)
Definition total_on_text (op : loc -> M loc) : Prop :=
  forall (h : heap) (series : loc) (rows : list (label * str)),
    h !! series = Some (TextSeries rows) ->
    exists l h', op series h = Return l h'.

(** The column that [to_integer] returns when the digits of an element are
    the characters of class [digit]: every other character deleted, the
    rest cast.  With [is_ascii_digit] the digits are 0-9 alone. *)
Definition extract_numeric_with (digit : Z -> bool) (dtype : option Dtype)
  (rows : list (label * str)) : result Series :=
  result_map NumSeries
    (rows_mapM (astype_str (default dtype_float dtype))
       (rows_map (filter (fun c => digit c)) rows)).

(** The exceptions of a failed cast, one class in the specification. *)
Definition TypeConversionError (e : exn) : Prop :=
  e = ValueError \/ e = OverflowError.

(** *** The removal set of [to_text]

    The base sets are the punctuation and the digits 0-9.  A [keep] value
    names its characters, a [keep_num] value the digit of its number. *)
Definition digits : str := py "0123456789".

Definition kept_chars (keep : keep_arg) : gset Z :=
  match keep with
  | KeepNone => ∅
  | KeepStr k => list_to_set k
  | KeepList ks => list_to_set (concat ks)
  end.

Definition kept_digits (keep_num : keep_num_arg) : gset Z :=
  match keep_num with
  | KeepNumNone => ∅
  | KeepNumInt n => {[ 48 + n ]}
  | KeepNumList ns => list_to_set ((fun n => 48 + n) <$> ns)
  end.

(** The set in the words of the specification: the union of the base sets,
    minus what [keep] and [keep_num] name. *)
Definition removal_set_spec (punct : bool) (keep : keep_arg)
  (keep_num : keep_num_arg) : gset Z :=
  ((if punct then list_to_set string_punctuation else ∅) ∪ list_to_set digits)
    ∖ kept_chars keep ∖ kept_digits keep_num.

(** The set as the code builds it: [keep] is taken from the punctuation
    and [keep_num] from the digits, each from its own base set only. *)
Definition removal_set (punct : bool) (keep : keep_arg)
  (keep_num : keep_num_arg) : gset Z :=
  (if punct then list_to_set string_punctuation ∖ kept_chars keep else ∅)
    ∪ (list_to_set digits ∖ kept_digits keep_num).

(** [keep] holds single characters; [keep_num] holds single digits, a
    digit given on its own being one of 1-9. *)
Definition keep_single_chars (keep : keep_arg) : Prop :=
  match keep with
  | KeepNone => True
  | KeepStr k => length k = 1%nat
  | KeepList ks => Forall (fun k => length k = 1%nat) ks
  end.

Definition keep_num_single_digits (keep_num : keep_num_arg) : Prop :=
  match keep_num with
  | KeepNumNone => True
  | KeepNumInt n => 1 <= n <= 9
  | KeepNumList ns => Forall (fun n => 0 <= n <= 9) ns
  end.

(** The values of the two arguments. *)
Definition keep_values (keep : keep_arg) : list str :=
  match keep with
  | KeepNone => []
  | KeepStr k => [k]
  | KeepList ks => ks
  end.

Definition keep_num_values (keep_num : keep_num_arg) : list Z :=
  match keep_num with
  | KeepNumNone => []
  | KeepNumInt n => [n]
  | KeepNumList ns => ns
  end.

(** A value is absent from a base set when it is none of its members: a
    [keep] value that is no punctuation character, a [keep_num] value that
    is no digit. *)
Definition absent_from_punctuation (k : str) : Prop :=
  forall c, c ∈ string_punctuation -> k <> [c].

Definition absent_from_digits (n : Z) : Prop := ¬ (0 <= n <= 9).

(** Two columns of text with the same labels whose elements, in order, are
    related by [R]. *)
Definition elementwise (R : str -> str -> Prop) (s s' : Series) : Prop :=
  match s, s' with
  | TextSeries rows, TextSeries rows' =>
      Forall2 (fun r r' => r.1 = r'.1 /\ R r.2 r'.2) rows rows'
  | _, _ => False
  end.

(** The non-empty pieces of contiguous text of [x], and whether deleting
    any one of them from [x] deletes exactly its characters. *)
Definition pieces (x : str) : list str :=
  seq 0 (length x) ≫= (fun i =>
  seq 1 (length x) ≫= (fun j => [take j (drop i x)])).

Definition pieces_deleted_by_character (x : str) : bool :=
  forallb (fun k =>
      bool_decide (str_replace x k [] = filter (fun c => c ∉ k) x))
    (pieces x).

(** * Properties *)

(** Replace a closed term of the goal by its value. *)
Ltac evaluate t := let v := eval vm_compute in t in change t with v.

(** ** The store and the pandas methods *)

Lemma rows_map_index {A B} (g : A -> B) (rows : list (label * A)) :
  (rows_map g rows).*1 = rows.*1.
Proof.
  unfold rows_map. rewrite <- list_fmap_compose. apply list_fmap_ext.
  by intros ? [i a].
Qed.

Lemma rows_mapM_total {A B} (f : A -> result B) (g : A -> B)
  (rows : list (label * A)) :
  (forall a, f a = Ok (g a)) -> rows_mapM f rows = Ok (rows_map g rows).
Proof.
  intros Hf. unfold rows_mapM, rows_map.
  induction rows as [|[i a] rows IH]; simpl; [done|].
  rewrite Hf. simpl. by rewrite IH.
Qed.

Lemma rows_mapM_index {A B} (f : A -> result B) (rows : list (label * A))
  (rows' : list (label * B)) :
  rows_mapM f rows = Ok rows' -> rows'.*1 = rows.*1.
Proof.
  unfold rows_mapM. revert rows'.
  induction rows as [|[i a] rows IH]; intros rows'; simpl.
  - by intros [= <-].
  - destruct (f a) as [b|e]; simpl; [|done].
    destruct (result_mapM _ rows) as [bs|e]; simpl; [|done].
    intros [= <-]. simpl. f_equal. by apply IH.
Qed.

Lemma rows_mapM_map {A B C} (f : B -> result C) (g : A -> B)
  (rows : list (label * A)) :
  rows_mapM f (rows_map g rows) = rows_mapM (fun a => f (g a)) rows.
Proof.
  unfold rows_mapM, rows_map.
  induction rows as [|[i a] rows IH]; csimpl; [done|]. by rewrite IH.
Qed.

Lemma rows_map_map {A B C} (f : B -> C) (g : A -> B) (rows : list (label * A)) :
  rows_map f (rows_map g rows) = rows_map (fun a => f (g a)) rows.
Proof.
  unfold rows_map. rewrite <- list_fmap_compose. apply list_fmap_ext.
  by intros ? [i a].
Qed.

Lemma rows_map_ext {A B} (f g : A -> B) (rows : list (label * A)) :
  (forall a, f a = g a) -> rows_map f rows = rows_map g rows.
Proof.
  intros Hfg. unfold rows_map. apply list_fmap_ext.
  intros ? [i a] _. simpl. by rewrite Hfg.
Qed.

(** A failing element exists exactly when the element-wise cast fails. *)
Lemma rows_mapM_Err {A B} (f : A -> result B) (rows : list (label * A)) :
  (exists e, rows_mapM f rows = Err e) <->
  (exists r e, r ∈ rows /\ f r.2 = Err e).
Proof.
  unfold rows_mapM. induction rows as [|[i a] rows IH]; simpl.
  - split; [intros [e [=]]|intros (r & e & []%elem_of_nil & _)].
  - setoid_rewrite elem_of_cons.
    destruct (f a) as [b|e] eqn:Hfa; simpl.
    + destruct (result_mapM _ rows) as [bs|e'] eqn:Hrows; simpl.
      * split; [intros [e [=]]|].
        intros (r & e & [->|Hr] & He); simpl in *; [congruence|].
        destruct IH as [_ [e' [=]]]; eauto.
      * split; [|eauto]. intros _.
        destruct IH as [(r & e & Hr & He) _]; eauto.
    + split; [|eauto]. intros _. exists (i, a), e. eauto.
Qed.

Lemma deref_Some (h : heap) (l : loc) (s : Series) :
  h !! l = Some s -> deref l h = Return s h.
Proof. unfold deref. by intros ->. Qed.

Lemma lookup_new (h : heap) (s : Series) : (h ++ [s]) !! length h = Some s.
Proof. by rewrite lookup_app_r, Nat.sub_diag by lia. Qed.

Lemma lookup_old (h h' : heap) (l : loc) (s : Series) :
  h !! l = Some s -> (h ++ h') !! l = Some s.
Proof. intros Hl. by apply lookup_app_l_Some. Qed.

Lemma Series_apply_text (h : heap) (series : loc) (f : pyval -> result str)
  (rows : list (label * str)) :
  h !! series = Some (TextSeries rows) ->
  Series_apply series f h =
    match rows_mapM (fun x => f (VStr x)) rows with
    | Ok rows' => Return (length h) (h ++ [TextSeries rows'])
    | Err e => Raise e h
    end.
Proof.
  intros Hl. unfold Series_apply, bind. rewrite (deref_Some _ _ _ Hl).
  by destruct (rows_mapM _ rows).
Qed.

Lemma Series_str_replace_text (h : heap) (series : loc) (pat : pattern)
  (repl : str) (rows : list (label * str)) :
  h !! series = Some (TextSeries rows) ->
  Series_str_replace series pat repl h =
    Return (length h) (h ++ [TextSeries (rows_map (re_sub pat repl) rows)]).
Proof.
  intros Hl. unfold Series_str_replace, bind. by rewrite (deref_Some _ _ _ Hl).
Qed.

Lemma Series_astype_text (h : heap) (series : loc) (dtype : Dtype)
  (rows : list (label * str)) :
  h !! series = Some (TextSeries rows) ->
  Series_astype series dtype h =
    match rows_mapM (astype_str dtype) rows with
    | Ok rows' => Return (length h) (h ++ [NumSeries rows'])
    | Err e => Raise e h
    end.
Proof.
  intros Hl. unfold Series_astype, bind. rewrite (deref_Some _ _ _ Hl).
  by destruct (rows_mapM _ rows).
Qed.

(** ** Regular expressions and text *)

Lemma re_sub_delete (p : pattern) (x : str) :
  re_sub p [] x = filter (fun c => ¬ class_matches p c) x.
Proof.
  unfold re_sub. induction x as [|c x IH]; [done|].
  rewrite bind_cons, filter_cons, IH.
  by destruct (class_matches p c).
Qed.

Lemma in_range_spec (lo hi c : Z) : in_range lo hi c <-> lo <= c <= hi.
Proof. unfold in_range. rewrite andb_True, !Is_true_true, !Z.leb_le. done. Qed.

(** The folded set of [[a-z0-9]]: the lower-case letters, the digits, and
    the two fixes. *)
Lemma folded_alnum (d : Z) :
  d ∈ folded_charset [(97, 122); (48, 57)] <->
  97 <= d <= 122 \/ 48 <= d <= 57 \/ d = 0x131 \/ d = 0x17F.
Proof.
  evaluate (folded_charset [(97, 122); (48, 57)]).
  rewrite !elem_of_cons, elem_of_nil. lia.
Qed.

(** The characters that the pattern of [to_specialChr] matches. *)
Lemma alnum_pattern_matches (c : Z) :
  class_matches (Pattern (CharSet [(97, 122); (48, 57)]) true) c
  = is_ascii_alnum c || folds_to_ascii_letter c.
Proof.
  apply eq_bool_prop_intro.
  unfold class_matches; simpl.
  rewrite bool_decide_spec, folded_alnum.
  unfold is_ascii_alnum, is_ascii_letter, is_ascii_lower, is_ascii_upper,
    is_ascii_digit, folds_to_ascii_letter.
  rewrite !orb_True, !in_range_spec, bool_decide_spec.
  rewrite !elem_of_cons, elem_of_nil.
  unfold sre_lower_unicode, is_ascii_upper.
  destruct (in_range 65 90 c) eqn:Hup.
  - apply Is_true_true, in_range_spec in Hup. lia.
  - apply not_true_iff_false in Hup. rewrite <- Is_true_true, in_range_spec in Hup.
    destruct (Z.eqb_spec c 0x130); [lia|].
    destruct (Z.eqb_spec c 0x212A); lia.
Qed.

(** ** Translation tables *)

Lemma maketrans_delete (z : list Z) :
  str_maketrans [] [] z = Ok (foldl (fun t c => <[c := None]> t) ∅ z).
Proof. done. Qed.

Lemma lookup_delete_table (z : list Z) (t : gmap Z (option Z)) (c : Z) :
  foldl (fun t c => <[c := None]> t) t z !! c
  = if decide (c ∈ z) then Some None else t !! c.
Proof.
  revert t. induction z as [|d z IH]; intros t.
  - by rewrite decide_False by apply not_elem_of_nil.
  - change (foldl _ t (d :: z)) with
      (foldl (fun t c => <[c := None]> t) (<[d := None]> t) z).
    rewrite IH. destruct (decide (c ∈ z)) as [Hc|Hc].
    + by rewrite decide_True by (by right).
    + destruct (decide (d = c)) as [->|Hd].
      * by rewrite lookup_insert_eq, decide_True by left.
      * rewrite lookup_insert_ne by done.
        rewrite decide_False; [done|]. by intros [->|?]%elem_of_cons.
Qed.

(** Translating with a table built from [z] alone deletes the characters
    of [z] and nothing else. *)
Lemma translate_delete (x z : list Z) :
  str_translate x (foldl (fun t c => <[c := None]> t) ∅ z)
  = filter (fun c => c ∉ z) x.
Proof.
  unfold str_translate. induction x as [|c x IH]; [done|].
  rewrite bind_cons, filter_cons, IH, lookup_delete_table, lookup_empty.
  by destruct (decide (c ∈ z)); [rewrite decide_False by tauto|rewrite decide_True].
Qed.

(** ** The operations on a column of text *)

Lemma to_specialChr_text (h : heap) (series : loc) (rows : list (label * str)) :
  h !! series = Some (TextSeries rows) ->
  to_specialChr series h
  = Return (length h) (h ++ [TextSeries (rows_map delete_alnum rows)]).
Proof.
  intros Hl. unfold to_specialChr. rewrite (Series_apply_text _ _ _ _ Hl).
  rewrite (rows_mapM_total _ delete_alnum); [done|].
  intros x. rewrite re_sub_delete. unfold delete_alnum. f_equal.
  apply list_filter_iff. intros c. by rewrite alnum_pattern_matches.
Qed.

Lemma to_text_text (h : heap) (series : loc) (punct : bool) (keep : keep_arg)
  (keep_num : keep_num_arg) (rows : list (label * str)) :
  h !! series = Some (TextSeries rows) ->
  to_text series punct keep keep_num h
  = Return (length h)
      (h ++ [TextSeries
               (rows_map (filter (fun c => c ∉ punct_numbers punct keep keep_num))
                  rows)]).
Proof.
  intros Hl. unfold to_text. rewrite (Series_apply_text _ _ _ _ Hl).
  rewrite (rows_mapM_total _
    (filter (fun c => c ∉ punct_numbers punct keep keep_num))); [done|].
  intros x. rewrite maketrans_delete. simpl. by rewrite translate_delete.
Qed.

Lemma to_integer_text (h : heap) (series : loc) (dtype : option Dtype)
  (rows : list (label * str)) :
  h !! series = Some (TextSeries rows) ->
  let cleaned := rows_map (filter (fun c => Py_UNICODE_ISDECIMAL c)) rows in
  to_integer series dtype h =
    match rows_mapM (astype_str (default dtype_float dtype)) cleaned with
    | Ok nums =>
        Return (S (length h)) (h ++ [TextSeries cleaned; NumSeries nums])
    | Err e => Raise e (h ++ [TextSeries cleaned])
    end.
Proof.
  intros Hl cleaned. unfold to_integer, bind.
  rewrite (Series_str_replace_text _ _ _ _ _ Hl).
  replace (rows_map (re_sub (Pattern NotDigit false) []) rows) with cleaned.
  2:{ apply rows_map_ext. intros x. rewrite re_sub_delete.
      apply list_filter_iff. intros c.
      change (class_matches (Pattern NotDigit false) c)
        with (negb (Py_UNICODE_ISDECIMAL c)).
      destruct (Py_UNICODE_ISDECIMAL c); simpl; tauto. }
  rewrite (Series_astype_text _ _ _ cleaned) by apply lookup_new.
  destruct (rows_mapM _ cleaned); [|done].
  rewrite length_app, <- app_assoc. simpl. f_equal. lia.
Qed.

(** ** [to_specialChr] *)

Lemma delete_alnum_idemp (x : list Z) : delete_alnum (delete_alnum x) = delete_alnum x.
Proof. unfold delete_alnum. apply list_filter_filter_l. tauto. Qed.

(** C5, at a concrete input: the Kelvin sign U+212A is not ASCII, a filter
    of the ASCII letters and digits would let it through, and
    [to_specialChr] deletes it. *)
Lemma to_specialChr_deletes_kelvin_sign :
  returned (to_specialChr 0%nat [pd_Series [[0x212A]]])
  <> Some (Ok (TextSeries (rows_map delete_ascii_alnum [(LInt 0, [0x212A])]))).
Proof. vm_compute. discriminate. Qed.

(** C5, amended: on every column of text [to_specialChr] deletes from each
    element exactly the ASCII letters, the ASCII digits and the four
    letters U+0130, U+0131, U+017F, U+212A that match a letter when case is
    ignored; every other character passes through in place.  An element
    made of ASCII letters and digits becomes the empty string. *)
Theorem to_specialChr_deletes (h : heap) (series : loc)
  (rows : list (label * str)) :
  h !! series = Some (TextSeries rows) ->
  returned (to_specialChr series h)
    = Some (Ok (TextSeries (rows_map delete_alnum rows)))
  /\ (forall x : str, Forall (fun c => is_ascii_alnum c) x -> delete_alnum x = [])
  /\ (forall x : str,
        Forall (fun c => ¬ is_ascii_alnum c /\ ¬ folds_to_ascii_letter c) x ->
        delete_alnum x = x).
Proof.
  intros Hl. split; [|split].
  - rewrite (to_specialChr_text _ _ _ Hl). simpl. by rewrite lookup_new.
  - intros x Hx. unfold delete_alnum.
    induction Hx as [|c x Hc _ IH]; [done|].
    rewrite filter_cons_False; [done|]. rewrite orb_True. tauto.
  - intros x Hx. unfold delete_alnum.
    induction Hx as [|c x Hc _ IH]; [done|].
    rewrite filter_cons_True, IH; [done|]. rewrite orb_True. tauto.
Qed.

Lemma to_specialChr_deletes_witness :
  [pd_Series [py "Hello123"; py "a-b c!"]] !! 0%nat
    = Some (TextSeries [(LInt 0, py "Hello123"); (LInt 1, py "a-b c!")])
  /\ returned (to_specialChr 0%nat [pd_Series [py "Hello123"; py "a-b c!"]])
     = Some (Ok (TextSeries
         (rows_map delete_alnum
            [(LInt 0, py "Hello123"); (LInt 1, py "a-b c!")]))).
Proof.
  split; [reflexivity|].
  apply (to_specialChr_deletes [pd_Series [py "Hello123"; py "a-b c!"]] 0%nat).
  reflexivity.
Defined.

(** The three-element column of the module's docstring: every element is
    made of letters and digits, and every one becomes empty. *)
Example to_specialChr_docstring_column :
  returned (to_specialChr 0%nat
              [pd_Series [py "Hello123"; py "World456"; py "Python"]])
  = Some (Ok (pd_Series [[]; []; []])).
Proof. reflexivity. Qed.

(** C8: [to_specialChr] is idempotent.  Applied to the column it returned
    it returns an equal column; this holds on every store and for every
    reference, also where the first application raises. *)
Theorem to_specialChr_idempotent (h : heap) (series : loc) :
  returned ((do once <- to_specialChr series ; to_specialChr once) h)
  = returned (to_specialChr series h).
Proof.
  unfold bind. destruct (h !! series) as [[rows|rows]|] eqn:Hl.
  - rewrite (to_specialChr_text _ _ _ Hl).
    rewrite (to_specialChr_text _ _ (rows_map delete_alnum rows))
      by apply lookup_new.
    simpl. rewrite !lookup_new. simpl. do 3 f_equal.
    rewrite rows_map_map. apply rows_map_ext, delete_alnum_idemp.
  - unfold to_specialChr, Series_apply, bind.
    rewrite (deref_Some _ _ _ Hl). destruct rows as [|[i n] rows]; [|done].
    unfold new at 1. rewrite (deref_Some _ _ (NumSeries [])) by apply lookup_new.
    unfold new. simpl. by rewrite !lookup_new.
  - unfold to_specialChr, Series_apply, bind, deref. by rewrite Hl.
Qed.

(** ** Length, index and the input column *)

Lemma rows_mapM_fail {A B} (e : exn) (r : label * A) (rows : list (label * A)) :
  rows_mapM (B := B) (fun _ => Err e) (r :: rows) = Err e.
Proof. done. Qed.

Lemma new_preserves (h : heap) (series : loc) (s s' : Series) :
  h !! series = Some s ->
  Series_index s' = Series_index s ->
  h `prefix_of` h ++ [s'] /\ (h ++ [s']) !! series = Some s /\
  exists s'', (h ++ [s']) !! length h = Some s'' /\
    Series_index s'' = Series_index s /\ Series_len s'' = Series_len s.
Proof.
  intros Hl Hi. split; [by apply prefix_app_r|].
  split; [by apply lookup_old|].
  exists s'. split; [apply lookup_new|]. split; [done|].
  unfold Series_len. by rewrite Hi.
Qed.

Lemma Series_apply_preserves (f : pyval -> result str) :
  preserves_input_and_index (fun series => Series_apply series f).
Proof.
  intros h series s Hl. unfold Series_apply, bind.
  rewrite (deref_Some _ _ _ Hl). destruct s as [rows|[|r rows]].
  - destruct (rows_mapM _ rows) as [rows'|e] eqn:Hrows; simpl; [|done].
    apply new_preserves; [done|]. simpl. by eapply rows_mapM_index.
  - by apply new_preserves.
  - destruct (rows_mapM _ (r :: rows)) as [rows'|e] eqn:Hrows; simpl; [|done].
    apply new_preserves; [done|]. apply (rows_mapM_index _ _ _ Hrows).
Qed.

Lemma to_integer_preserves (dtype : option Dtype) :
  preserves_input_and_index (fun series => to_integer series dtype).
Proof.
  intros h series s Hl. destruct s as [rows|rows].
  - rewrite (to_integer_text _ _ _ _ Hl). cbv zeta.
    destruct (rows_mapM _ _) as [nums|e] eqn:Hnums.
    + split; [by apply prefix_app_r|]. split; [by apply lookup_old|].
      exists (NumSeries nums). split.
      { change [TextSeries (rows_map (filter (fun c => Py_UNICODE_ISDECIMAL c)) rows);
                NumSeries nums]
          with ([TextSeries (rows_map (filter (fun c => Py_UNICODE_ISDECIMAL c)) rows)]
                ++ [NumSeries nums]).
        rewrite app_assoc.
        replace (S (length h)) with
          (length (h ++ [TextSeries (rows_map (filter (fun c => Py_UNICODE_ISDECIMAL c)) rows)]))
          by (rewrite length_app; simpl; lia).
        apply lookup_new. }
      assert (nums.*1 = rows.*1) as Hi.
      { rewrite (rows_mapM_index _ _ _ Hnums). apply rows_map_index. }
      unfold Series_len. simpl. by rewrite Hi.
    + split; [by apply prefix_app_r|by apply lookup_old].
  - unfold to_integer, bind, Series_str_replace, bind.
    rewrite (deref_Some _ _ _ Hl). simpl. done.
Qed.

(** C7: each of the three operations, on every store and for every input
    column, leaves the columns of the store as they were (the input among
    them), and a column it returns has the index and the length of the
    input; on a column of text [to_text] and [to_specialChr] do return
    one. *)
Theorem operations_preserve_length_index_input :
  (forall dtype, preserves_input_and_index (fun series => to_integer series dtype))
  /\ (forall punct keep keep_num,
        preserves_input_and_index
          (fun series => to_text series punct keep keep_num)
        /\ total_on_text (fun series => to_text series punct keep keep_num))
  /\ preserves_input_and_index to_specialChr
  /\ total_on_text to_specialChr.
Proof.
  split; [apply to_integer_preserves|]. split; [|split].
  - intros punct keep keep_num. split; [apply Series_apply_preserves|].
    intros h series rows Hl. rewrite (to_text_text _ _ _ _ _ _ Hl). eauto.
  - apply Series_apply_preserves.
  - intros h series rows Hl. rewrite (to_specialChr_text _ _ _ Hl). eauto.
Qed.

Lemma operations_preserve_length_index_input_witness :
  [pd_Series [py "a-1"; py "b2"]] !! 0%nat
    = Some (pd_Series [py "a-1"; py "b2"])
  /\ match to_specialChr 0%nat [pd_Series [py "a-1"; py "b2"]] with
     | Return l h' =>
         [pd_Series [py "a-1"; py "b2"]] `prefix_of` h'
         /\ h' !! 0%nat = Some (pd_Series [py "a-1"; py "b2"])
         /\ exists s', h' !! l = Some s'
              /\ Series_index s' = Series_index (pd_Series [py "a-1"; py "b2"])
              /\ Series_len s' = Series_len (pd_Series [py "a-1"; py "b2"])
     | Raise _ h' =>
         [pd_Series [py "a-1"; py "b2"]] `prefix_of` h'
         /\ h' !! 0%nat = Some (pd_Series [py "a-1"; py "b2"])
     | Stuck => False
     end.
Proof.
  split; [reflexivity|].
  apply (proj1 (proj2 (proj2 operations_preserve_length_index_input))
           [pd_Series [py "a-1"; py "b2"]] 0%nat
           (pd_Series [py "a-1"; py "b2"]) eq_refl).
Defined.

(** ** [to_integer] *)

Lemma to_integer_returned (h : heap) (series : loc) (dtype : option Dtype)
  (rows : list (label * str)) :
  h !! series = Some (TextSeries rows) ->
  returned (to_integer series dtype h)
  = Some (extract_numeric_with Py_UNICODE_ISDECIMAL dtype rows).
Proof.
  intros Hl. rewrite (to_integer_text _ _ _ _ Hl). cbv zeta.
  unfold extract_numeric_with.
  destruct (rows_mapM _ _) as [nums|e]; [|done].
  simpl. rewrite lookup_app_r by lia.
  by replace (S (length h) - length h)%nat with 1%nat by lia.
Qed.

Lemma rows_mapM_Err_elem {A B} (f : A -> result B) (rows : list (label * A))
  (e : exn) :
  rows_mapM f rows = Err e -> exists r, r ∈ rows /\ f r.2 = Err e.
Proof.
  unfold rows_mapM. induction rows as [|[i a] rows IH]; simpl; [done|].
  setoid_rewrite elem_of_cons.
  destruct (f a) as [b|e'] eqn:Hfa; simpl.
  - destruct (result_mapM _ rows) as [bs|e'']; simpl; [done|].
    intros [= ->]. destruct IH as (r & Hr & He); eauto.
  - intros [= ->]. exists (i, a). eauto.
Qed.

Lemma ascii_decimal (c : Z) :
  is_ascii c -> Py_UNICODE_ISDECIMAL c = is_ascii_digit c.
Proof.
  unfold is_ascii, is_ascii_digit. rewrite in_range_spec. intros Hc.
  unfold Py_UNICODE_ISDECIMAL, unicode_decimal.
  destruct (in_range 48 57 c) eqn:Hd.
  - by cbn [unicode_Nd decimal_in]; rewrite Hd.
  - apply bool_decide_eq_false. intros [d Hdec]. revert Hdec.
    apply not_true_iff_false in Hd.
    rewrite <- Is_true_true, in_range_spec in Hd.
    unfold unicode_Nd.
    repeat (cbn [decimal_in];
            match goal with
            | |- context [in_range ?lo ?hi c] =>
                let H := fresh in
                destruct (in_range lo hi c) eqn:H;
                [apply Is_true_true, in_range_spec in H; lia|clear H]
            end).
    done.
Qed.

(** C1, at a concrete input: U+0663, the Arabic-Indic digit three, is not
    one of 0-9, yet it is not deleted: the element is cast to 3, where a
    filter of the digits 0-9 would leave the empty string and fail. *)
Lemma to_integer_keeps_arabic_indic_digit :
  returned (to_integer 0%nat (Some dtype_int) [pd_Series [[0x663]]])
  = Some (Ok (NumSeries [(LInt 0, NInt 3)]))
  /\ returned (to_integer 0%nat (Some dtype_int) [pd_Series [[0x663]]])
     <> Some (extract_numeric_with is_ascii_digit (Some dtype_int)
                [(LInt 0, [0x663])]).
Proof. split; [reflexivity|]. vm_compute. discriminate. Qed.

(** C1, amended: for every column of text and every target type,
    [to_integer] maps each element to the cast of what is left when every
    character that is not a Unicode decimal digit (category Nd) is
    deleted; the target type is float when none is given.  On ASCII text
    the decimal digits are 0-9, so there every character other than 0-9 is
    deleted. *)
Theorem to_integer_deletes_non_decimal (h : heap) (series : loc)
  (dtype : option Dtype) (rows : list (label * str)) :
  h !! series = Some (TextSeries rows) ->
  returned (to_integer series dtype h)
    = Some (extract_numeric_with Py_UNICODE_ISDECIMAL dtype rows)
  /\ returned (to_integer series None h)
     = returned (to_integer series (Some dtype_float) h)
  /\ (Forall (fun r => Forall (fun c => is_ascii c) r.2) rows ->
      returned (to_integer series dtype h)
      = Some (extract_numeric_with is_ascii_digit dtype rows)).
Proof.
  intros Hl. split; [by apply to_integer_returned|]. split; [done|].
  intros Hascii. rewrite (to_integer_returned _ _ _ _ Hl).
  unfold extract_numeric_with. do 3 f_equal.
  unfold rows_map. apply list_fmap_ext. intros k [i x] Hk. simpl. f_equal.
  assert (Forall (fun c => is_ascii c) x) as Hx.
  { rewrite Forall_forall in Hascii.
    apply (Hascii (i, x)). by eapply list_elem_of_lookup_2. }
  clear Hk. induction Hx as [|c x Hc _ IH]; [done|].
  rewrite !filter_cons, IH, (ascii_decimal c Hc). done.
Qed.

Lemma to_integer_deletes_non_decimal_witness :
  [pd_Series [py "a1.5"]] !! 0%nat = Some (TextSeries [(LInt 0, py "a1.5")])
  /\ returned (to_integer 0%nat None [pd_Series [py "a1.5"]])
     = Some (extract_numeric_with Py_UNICODE_ISDECIMAL None [(LInt 0, py "a1.5")]).
Proof.
  split; [reflexivity|].
  apply (to_integer_deletes_non_decimal [pd_Series [py "a1.5"]] 0%nat None).
  reflexivity.
Defined.

(** C3: the column of the docstring.  The decimal point is deleted and the
    digits on both sides of it are read as one integer, so the code
    returns 12345, 45678 and 7890, whatever the width of [int], and not
    the 123, 456 and 789 of the docstring. *)
Theorem to_integer_docstring_column :
  let data := pd_Series [py "123.45"; py "456.78"; py "789.0"] in
  (forall bits, bits = 32 \/ bits = 64 ->
     returned (to_integer 0%nat (Some (np_int bits)) [data])
     = Some (Ok (NumSeries
         [(LInt 0, NInt 12345); (LInt 1, NInt 45678); (LInt 2, NInt 7890)])))
  /\ returned (to_integer 0%nat (Some dtype_int) [data])
     <> Some (Ok (NumSeries
          [(LInt 0, NInt 123); (LInt 1, NInt 456); (LInt 2, NInt 789)])).
Proof.
  split.
  - by intros bits [-> | ->].
  - vm_compute. discriminate.
Qed.

Lemma to_integer_docstring_column_witness :
  returned (to_integer 0%nat (Some (np_int 64))
              [pd_Series [py "123.45"; py "456.78"; py "789.0"]])
  = Some (Ok (NumSeries
      [(LInt 0, NInt 12345); (LInt 1, NInt 45678); (LInt 2, NInt 7890)])).
Proof. apply (proj1 to_integer_docstring_column 64). right. reflexivity. Defined.

(** C6: [to_integer] with [int] raises [ValueError] on the column
    ["abc"]; on a column of text it raises a conversion error as soon as
    the digits left of some element are none; and for every target type
    it raises exactly when some element, cleaned, cannot be cast, the
    exception being a conversion error for [int] and for [float]. *)
Theorem to_integer_raises_when_cast_fails (h : heap) (series : loc)
  (dtype : option Dtype) (rows : list (label * str)) :
  h !! series = Some (TextSeries rows) ->
  let clean := filter (fun c : Z => Py_UNICODE_ISDECIMAL c) in
  let cast := astype_str (default dtype_float dtype) in
  returned (to_integer 0%nat (Some dtype_int) [pd_Series [py "abc"]])
    = Some (Err ValueError)
  /\ ((exists r, r ∈ rows /\ clean r.2 = []) ->
      forall bits, exists e,
        returned (to_integer series (Some (np_int bits)) h) = Some (Err e)
        /\ TypeConversionError e)
  /\ ((exists e, returned (to_integer series dtype h) = Some (Err e))
      <-> (exists r e, r ∈ rows /\ cast (clean r.2) = Err e))
  /\ (forall e, returned (to_integer series dtype h) = Some (Err e) ->
      exists r, r ∈ rows /\ cast (clean r.2) = Err e)
  /\ (forall bits e,
        returned (to_integer series (Some (np_int bits)) h) = Some (Err e)
        \/ returned (to_integer series (Some dtype_float) h) = Some (Err e)
        \/ returned (to_integer series None h) = Some (Err e) ->
        TypeConversionError e).
Proof.
  intros Hl clean cast.
  assert (forall d e,
    returned (to_integer series d h) = Some (Err e) ->
    exists r, r ∈ rows /\ astype_str (default dtype_float d) (clean r.2) = Err e)
    as Hfail.
  { intros d e. rewrite (to_integer_returned _ _ _ _ Hl).
    unfold extract_numeric_with. rewrite rows_mapM_map.
    destruct (rows_mapM _ rows) as [nums|e'] eqn:Hrows; simpl; [done|].
    intros [= ->]. by apply rows_mapM_Err_elem in Hrows. }
  assert (forall d,
    (exists r e, r ∈ rows /\ astype_str (default dtype_float d) (clean r.2) = Err e) ->
    exists e, returned (to_integer series d h) = Some (Err e)) as Hraise.
  { intros d Hex. rewrite (to_integer_returned _ _ _ _ Hl).
    unfold extract_numeric_with. rewrite rows_mapM_map.
    apply (rows_mapM_Err (fun x => astype_str (default dtype_float d) (clean x)))
      in Hex as [e He].
    exists e. unfold clean in He. by rewrite He. }
  assert (forall bits e,
    returned (to_integer series (Some (np_int bits)) h) = Some (Err e) ->
    TypeConversionError e) as Hint.
  { intros bits e (r & _ & He)%Hfail. simpl in He.
    destruct (int_of_digits (clean r.2)) as [z|]; [|left; congruence].
    destruct (_ && _); [done|right; congruence]. }
  assert (forall e,
    returned (to_integer series (Some dtype_float) h) = Some (Err e) ->
    TypeConversionError e) as Hfloat.
  { intros e (r & _ & He)%Hfail. simpl in He.
    destruct (int_of_digits (clean r.2)) as [z|]; [done|left; congruence]. }
  split; [reflexivity|]. split; [|split; [|split]].
  - intros (r & Hr & Hempty) bits.
    destruct (Hraise (Some (np_int bits))) as [e He].
    { exists r, ValueError. split; [done|]. simpl. by rewrite Hempty. }
    exists e. split; [done|]. by eapply Hint.
  - split.
    + intros [e (r & Hr & He)%Hfail]. eauto.
    + apply Hraise.
  - apply Hfail.
  - intros bits e [He|[He|He]]; [by eapply Hint|by apply Hfloat..].
Qed.

Lemma to_integer_raises_when_cast_fails_witness :
  [pd_Series [py "7"; py "abc"]] !! 0%nat
    = Some (TextSeries [(LInt 0, py "7"); (LInt 1, py "abc")])
  /\ exists e,
       returned (to_integer 0%nat (Some (np_int 64)) [pd_Series [py "7"; py "abc"]])
       = Some (Err e)
       /\ TypeConversionError e.
Proof.
  split; [reflexivity|].
  apply (to_integer_raises_when_cast_fails [pd_Series [py "7"; py "abc"]]
           0%nat None [(LInt 0, py "7"); (LInt 1, py "abc")] eq_refl).
  exists (LInt 1, py "abc"). split; [|reflexivity].
  apply elem_of_cons. right. apply elem_of_cons. by left.
Defined.

(** ** [str.replace] with an empty replacement *)

Lemma startswith_singleton (x : list Z) (c k : Z) :
  startswith (c :: x) [k] = (c =? k).
Proof. simpl. apply andb_true_r. Qed.

(** Deleting a single character is a filter. *)
Lemma str_replace_char (x : list Z) (k : Z) :
  str_replace x [k] [] = filter (fun c => c <> k) x.
Proof.
  unfold str_replace. induction x as [|c x IH]; [done|].
  cbn [replace_scan]. rewrite startswith_singleton, filter_cons.
  destruct (Z.eqb_spec c k) as [->|Hck]; simpl.
  - rewrite decide_False by tauto. apply IH.
  - rewrite decide_True by done. by rewrite IH.
Qed.

Lemma str_contains_cons (x old : list Z) (c : Z) :
  str_contains (c :: x) old = startswith (c :: x) old || str_contains x old.
Proof. done. Qed.

(** A text that does not occur is not replaced. *)
Lemma str_replace_absent (x old new : list Z) :
  str_contains x old = false -> str_replace x old new = x.
Proof.
  destruct old as [|o old].
  { by destruct x. }
  unfold str_replace. induction x as [|c x IH]; [done|].
  rewrite str_contains_cons. intros [Hs Hc]%orb_false_iff.
  cbn [replace_scan]. rewrite Hs. f_equal. by apply IH.
Qed.

Lemma str_contains_char (x : list Z) (k : Z) :
  str_contains x [k] <-> k ∈ x.
Proof.
  induction x as [|c x IH].
  - simpl. rewrite elem_of_nil. done.
  - rewrite str_contains_cons, startswith_singleton, orb_True, IH, elem_of_cons.
    rewrite Is_true_true, Z.eqb_eq.
    split; (intros [?|?]; [left; congruence|by right]).
Qed.

(** Replacing by the empty text only deletes. *)
Lemma replace_scan_elem (old x : list Z) (skip : nat) (c : Z) :
  c ∈ replace_scan old [] skip x -> c ∈ x.
Proof.
  revert skip. induction x as [|d x IH]; intros skip; [done|].
  cbn [replace_scan]. destruct skip as [|k].
  - destruct (startswith (d :: x) old).
    + intros Hc%IH. by right.
    + intros [->|Hc%IH]%elem_of_cons; [left|by right].
  - intros Hc%IH. by right.
Qed.

Lemma str_replace_elem (x old : list Z) (c : Z) :
  c ∈ str_replace x old [] -> c ∈ x.
Proof.
  destruct old as [|o old]; unfold str_replace.
  - simpl. intros (d & Hc & Hd)%list_elem_of_bind.
    by apply list_elem_of_singleton in Hc as ->.
  - apply replace_scan_elem.
Qed.

Lemma str_of_int_digit (n : Z) : 0 <= n <= 9 -> str_of_int n = [48 + n].
Proof.
  intros Hn.
  assert (Forall (fun m => str_of_int m = [48 + m]) (seqZ 0 10)) as Hall.
  { evaluate (seqZ 0 10). repeat constructor. }
  rewrite Forall_forall in Hall. apply Hall, elem_of_seqZ. lia.
Qed.

(** ** [to_text] *)

Lemma to_text_returned (h : heap) (series : loc) (punct : bool)
  (keep : keep_arg) (keep_num : keep_num_arg) (rows : list (label * str)) :
  h !! series = Some (TextSeries rows) ->
  returned (to_text series punct keep keep_num h)
  = Some (Ok (TextSeries
      (rows_map (filter (fun c => c ∉ punct_numbers punct keep keep_num)) rows))).
Proof.
  intros Hl. rewrite (to_text_text _ _ _ _ _ _ Hl). simpl.
  by rewrite lookup_new.
Qed.

Lemma filter_all {A} (P : A -> Prop) `{!forall a, Decision (P a)} (x : list A) :
  (forall a, P a) -> filter P x = x.
Proof.
  intros HP. induction x as [|a x IH]; [done|].
  by rewrite filter_cons_True, IH.
Qed.

(** Deleting single characters one after the other deletes the characters
    of all of them. *)
Lemma foldl_replace_chars (ks : list (list Z)) (x : list Z) :
  Forall (fun k => length k = 1%nat) ks ->
  foldl (fun p k => str_replace p k []) x ks
  = filter (fun c => c ∉ concat ks) x.
Proof.
  intros Hks. revert x. induction Hks as [|k ks Hk _ IH]; intros x.
  - simpl. symmetry. apply filter_all. intros c. apply not_elem_of_nil.
  - destruct k as [|k0 [|? ?]]; try done.
    cbn [foldl concat]. rewrite IH, str_replace_char, list_filter_filter.
    apply list_filter_iff. intros c. simpl. rewrite elem_of_cons. tauto.
Qed.

Lemma foldl_replace_digits (ns : list Z) (x : list Z) :
  Forall (fun n => 0 <= n <= 9) ns ->
  foldl (fun p n => str_replace p (str_of_int n) []) x ns
  = filter (fun c => c ∉ (fun n => 48 + n) <$> ns) x.
Proof.
  intros Hns. revert x. induction Hns as [|n ns Hn _ IH]; intros x.
  - simpl. symmetry. apply filter_all. intros c. apply not_elem_of_nil.
  - cbn [foldl]. rewrite IH, (str_of_int_digit n Hn), str_replace_char.
    rewrite list_filter_filter. apply list_filter_iff. intros c.
    rewrite fmap_cons, elem_of_cons. tauto.
Qed.

(** The punctuation and the digits that are left to delete. *)
Lemma punct_numbers_single (punct : bool) (keep : keep_arg)
  (keep_num : keep_num_arg) :
  keep_single_chars keep -> keep_num_single_digits keep_num ->
  punct_numbers punct keep keep_num
  = (if punct then filter (fun c => c ∉ kept_chars keep) string_punctuation
     else [])
    ++ filter (fun c => c ∉ kept_digits keep_num) digits.
Proof.
  intros Hk Hn.
  assert (forall c : Z, c ∉ (∅ : gset Z)) as Hempty
    by (intros c; apply not_elem_of_empty).
  assert ((if keep_truthy keep then
             match keep with
             | KeepStr k => str_replace string_punctuation k []
             | KeepList ks =>
                 foldl (fun p k => str_replace p k []) string_punctuation ks
             | KeepNone => string_punctuation
             end
           else string_punctuation)
          = filter (fun c => c ∉ kept_chars keep) string_punctuation) as Hp.
  { destruct keep as [|k|ks]; simpl in Hk; cbn [kept_chars].
    - by rewrite filter_all.
    - destruct k as [|k0 [|? ?]]; try done. cbn [keep_truthy].
      rewrite str_replace_char. apply list_filter_iff. intros c.
      rewrite elem_of_list_to_set, list_elem_of_singleton. done.
    - destruct ks as [|k ks]; [by rewrite filter_all|]. cbn [keep_truthy].
      rewrite foldl_replace_chars by done. apply list_filter_iff. intros c.
      by rewrite elem_of_list_to_set. }
  assert ((if keep_num_truthy keep_num then
             match keep_num with
             | KeepNumInt n => str_replace (py "0123456789") (str_of_int n) []
             | KeepNumList ns =>
                 foldl (fun p n => str_replace p (str_of_int n) [])
                   (py "0123456789") ns
             | KeepNumNone => py "0123456789"
             end
           else py "0123456789")
          = filter (fun c => c ∉ kept_digits keep_num) digits) as Hd.
  { destruct keep_num as [|n|ns]; simpl in Hn; cbn [kept_digits].
    - by rewrite filter_all.
    - replace (keep_num_truthy (KeepNumInt n)) with true
        by (destruct n; [lia|done..]).
      rewrite str_of_int_digit, str_replace_char by lia.
      apply list_filter_iff. intros c. rewrite elem_of_singleton. done.
    - destruct ns as [|n ns]; [by rewrite filter_all|]. cbn [keep_num_truthy].
      rewrite foldl_replace_digits by done. apply list_filter_iff. intros c.
      by rewrite elem_of_list_to_set. }
  unfold punct_numbers. cbv zeta. rewrite Hp, Hd. by destruct punct.
Qed.

Lemma punct_numbers_set (punct : bool) (keep : keep_arg)
  (keep_num : keep_num_arg) :
  keep_single_chars keep -> keep_num_single_digits keep_num ->
  list_to_set (punct_numbers punct keep keep_num)
  = removal_set punct keep keep_num.
Proof.
  intros Hk Hn. rewrite (punct_numbers_single _ _ _ Hk Hn).
  unfold removal_set. apply set_eq. intros c.
  rewrite elem_of_list_to_set, elem_of_app, elem_of_union.
  destruct punct;
    rewrite ?list_elem_of_filter, ?elem_of_difference, ?elem_of_list_to_set,
      ?elem_of_nil, ?elem_of_empty; tauto.
Qed.

(** C2, at a concrete input: [keep] names the digit 5, the set of the
    specification no longer holds it, and the code deletes it all the
    same. *)
Lemma to_text_keep_does_not_keep_digit :
  returned (to_text 0%nat true (KeepList [py "5"]) KeepNumNone
              [pd_Series [py "a5"]])
  = Some (Ok (pd_Series [py "a"]))
  /\ returned (to_text 0%nat true (KeepList [py "5"]) KeepNumNone
                 [pd_Series [py "a5"]])
     <> Some (Ok (TextSeries
          (rows_map
             (filter (fun c =>
                c ∉ removal_set_spec true (KeepList [py "5"]) KeepNumNone))
             [(LInt 0, py "a5")]))).
Proof. split; [reflexivity|]. vm_compute. discriminate. Qed.

(** C2, amended: with single characters in [keep] and single digits in
    [keep_num] (a digit on its own being one of 1-9), the characters that
    [to_text] deletes are the punctuation, when [punct] is true, minus the
    characters of [keep], together with the digits minus the digits of
    [keep_num]; [keep] takes nothing from the digits and [keep_num] nothing
    from the punctuation.  Each element loses exactly the characters of
    this set; the others stay, in order and unchanged. *)
Theorem to_text_deletes_removal_set (h : heap) (series : loc) (punct : bool)
  (keep : keep_arg) (keep_num : keep_num_arg) (rows : list (label * str)) :
  h !! series = Some (TextSeries rows) ->
  keep_single_chars keep -> keep_num_single_digits keep_num ->
  list_to_set (punct_numbers punct keep keep_num)
    = removal_set punct keep keep_num
  /\ returned (to_text series punct keep keep_num h)
     = Some (Ok (TextSeries
         (rows_map (filter (fun c => c ∉ removal_set punct keep keep_num))
            rows))).
Proof.
  intros Hl Hk Hn. split; [by apply punct_numbers_set|].
  rewrite (to_text_returned _ _ _ _ _ _ Hl). do 3 f_equal.
  apply rows_map_ext. intros x. apply list_filter_iff. intros c.
  by rewrite <- (punct_numbers_set _ _ _ Hk Hn), elem_of_list_to_set.
Qed.

Lemma to_text_deletes_removal_set_witness :
  [pd_Series [py "Hello, 123!"]] !! 0%nat
    = Some (TextSeries [(LInt 0, py "Hello, 123!")])
  /\ keep_single_chars (KeepList [py ","])
  /\ keep_num_single_digits (KeepNumInt 2)
  /\ returned (to_text 0%nat true (KeepList [py ","]) (KeepNumInt 2)
                 [pd_Series [py "Hello, 123!"]])
     = Some (Ok (TextSeries
         (rows_map
            (filter (fun c =>
               c ∉ removal_set true (KeepList [py ","]) (KeepNumInt 2)))
            [(LInt 0, py "Hello, 123!")]))).
Proof.
  assert (keep_single_chars (KeepList [py ","])) as Hk
    by (repeat constructor).
  assert (keep_num_single_digits (KeepNumInt 2)) as Hn by (simpl; lia).
  split; [reflexivity|]. split; [exact Hk|]. split; [exact Hn|].
  apply (to_text_deletes_removal_set [pd_Series [py "Hello, 123!"]] 0%nat
           true (KeepList [py ","]) (KeepNumInt 2)
           [(LInt 0, py "Hello, 123!")] eq_refl Hk Hn).
Defined.

(** The witness column, evaluated: the comma and the digit 2 stay. *)
Example to_text_keeps_comma_and_two :
  returned (to_text 0%nat true (KeepList [py ","]) (KeepNumInt 2)
              [pd_Series [py "Hello, 123!"]])
  = Some (Ok (pd_Series [py "Hello, 2"])).
Proof. reflexivity. Qed.

(** C4: the column and the arguments of the docstring.  [keep] holds a
    letter and a digit, neither of which is punctuation, so it changes
    nothing; the digit 2 is kept, the comma, the exclamation mark and the
    other digits go, and the letters and the blank stay in place.  The
    code returns "Hello 2", "World", "Python", for [keep_num] the list [2]
    as for the integer 2, and not the "Holle", "Wrd", "Python" of the
    docstring. *)
Theorem to_text_docstring_column :
  let data := pd_Series [py "Hello, 123!"; py "World456"; py "Python"] in
  let keep := KeepList [py "o"; py "5"] in
  returned (to_text 0%nat true keep (KeepNumList [2]) [data])
    = Some (Ok (pd_Series [py "Hello 2"; py "World"; py "Python"]))
  /\ returned (to_text 0%nat true keep (KeepNumInt 2) [data])
     = Some (Ok (pd_Series [py "Hello 2"; py "World"; py "Python"]))
  /\ returned (to_text 0%nat true keep (KeepNumList [2]) [data])
     <> Some (Ok (pd_Series [py "Holle"; py "Wrd"; py "Python"])).
Proof. split; [reflexivity|]. split; [reflexivity|]. vm_compute. discriminate. Qed.

(** Values that do not occur in the text they are to be taken from leave
    it as it is. *)
Lemma foldl_replace_absent {A} (f : A -> list Z) (vs : list A) (x : list Z) :
  Forall (fun v => str_contains x (f v) = false) vs ->
  foldl (fun p v => str_replace p (f v) []) x vs = x.
Proof.
  induction 1 as [|v vs Hv _ IH]; [done|].
  cbn [foldl]. by rewrite (str_replace_absent _ _ _ Hv).
Qed.

Lemma punct_numbers_keep_absent (punct : bool) (keep : keep_arg)
  (keep_num : keep_num_arg) :
  Forall (fun k => str_contains string_punctuation k = false) (keep_values keep) ->
  punct_numbers punct keep keep_num = punct_numbers punct KeepNone keep_num.
Proof.
  intros Hk. unfold punct_numbers. cbv zeta.
  replace (if keep_truthy keep then _ else string_punctuation)
    with string_punctuation; [done|].
  destruct (keep_truthy keep); [|done].
  destruct keep as [|k|ks]; simpl in Hk; [done| |].
  - apply Forall_cons_1 in Hk as [Hk _]. by rewrite str_replace_absent.
  - by rewrite (foldl_replace_absent (fun k => k)).
Qed.

Lemma punct_numbers_keep_num_absent (punct : bool) (keep : keep_arg)
  (keep_num : keep_num_arg) :
  Forall (fun n => str_contains digits (str_of_int n) = false)
    (keep_num_values keep_num) ->
  punct_numbers punct keep keep_num = punct_numbers punct keep KeepNumNone.
Proof.
  intros Hn. unfold punct_numbers. cbv zeta.
  replace (if keep_num_truthy keep_num then _ else py "0123456789")
    with (py "0123456789"); [done|].
  destruct (keep_num_truthy keep_num); [|done].
  destruct keep_num as [|n|ns]; simpl in Hn; [done| |].
  - apply Forall_cons_1 in Hn as [Hn _]. by rewrite str_replace_absent.
  - by rewrite (foldl_replace_absent str_of_int).
Qed.

Lemma foldl_replace_elem {A} (f : A -> list Z) (vs : list A) (x : list Z)
  (c : Z) :
  c ∈ foldl (fun p v => str_replace p (f v) []) x vs -> c ∈ x.
Proof.
  revert x. induction vs as [|v vs IH]; intros x; [done|].
  cbn [foldl]. intros Hc%IH. by eapply str_replace_elem.
Qed.

(** A text that occurs is made of characters of the text it occurs in. *)
Lemma startswith_elem (x old : list Z) (c : Z) :
  startswith x old = true -> c ∈ old -> c ∈ x.
Proof.
  revert x. induction old as [|o old IH]; intros x; [by intros _ ?%elem_of_nil|].
  destruct x as [|d x]; [done|]. cbn [startswith].
  intros [Hd%Z.eqb_eq Hs]%andb_true_iff [->|Hc]%elem_of_cons.
  - subst d. by left.
  - right. by apply IH.
Qed.

Lemma str_contains_elem (x old : list Z) (c : Z) :
  str_contains x old = true -> c ∈ old -> c ∈ x.
Proof.
  induction x as [|d x IH].
  - simpl. rewrite orb_false_r. apply startswith_elem.
  - rewrite str_contains_cons. intros [Hs|Hx]%orb_true_iff Hc.
    + by eapply startswith_elem.
    + right. by apply IH.
Qed.

(** A value with a character foreign to the base text never occurs in what
    is left of it, wherever the value stands among the others. *)
Lemma foldl_replace_foreign {A} (f : A -> list Z) (vs1 vs2 : list A) (v : A)
  (x : list Z) :
  (exists c, c ∈ f v /\ c ∉ x) ->
  foldl (fun p v => str_replace p (f v) []) x (vs1 ++ v :: vs2)
  = foldl (fun p v => str_replace p (f v) []) x (vs1 ++ vs2).
Proof.
  intros (c & Hcv & Hcx). rewrite !foldl_app. cbn [foldl].
  rewrite str_replace_absent; [done|].
  apply not_true_iff_false. intros Hin. apply Hcx.
  apply (foldl_replace_elem f vs1). by eapply str_contains_elem.
Qed.

(** C9, at concrete inputs.  12 is no digit, so it is absent from the base
    set of the digits; its text occurs in "0123456789" all the same, and
    with it the digits 1 and 2 are kept.  13 is no digit either and its
    text does not even occur in "0123456789"; after the 2 has been taken
    out it does, and the call with [2, 13] differs from the call with
    [2]. *)
Lemma to_text_keep_num_twelve_keeps_digits :
  absent_from_digits 12
  /\ returned (to_text 0%nat true KeepNone (KeepNumInt 12) [pd_Series [py "12"]])
     = Some (Ok (pd_Series [py "12"]))
  /\ returned (to_text 0%nat true KeepNone KeepNumNone [pd_Series [py "12"]])
     = Some (Ok (pd_Series [py ""]))
  /\ returned (to_text 0%nat true KeepNone (KeepNumInt 12) [pd_Series [py "12"]])
     <> returned (to_text 0%nat true KeepNone KeepNumNone [pd_Series [py "12"]])
  /\ absent_from_digits 13
  /\ str_contains digits (str_of_int 13) = false
  /\ returned (to_text 0%nat true KeepNone (KeepNumList [2; 13])
                 [pd_Series [py "13"]])
     <> returned (to_text 0%nat true KeepNone (KeepNumList [2])
                    [pd_Series [py "13"]]).
Proof.
  split; [unfold absent_from_digits; lia|].
  split; [reflexivity|]. split; [reflexivity|].
  split; [vm_compute; discriminate|].
  split; [unfold absent_from_digits; lia|].
  split; [reflexivity|]. vm_compute. discriminate.
Qed.

(** C9, amended: when no [keep] value occurs in the punctuation as a piece
    of contiguous text, the call is the call without [keep], and when the
    decimal text of no [keep_num] value occurs in "0123456789", the call
    is the call without [keep_num], on every store and column; on a column
    of text nothing is raised.  A value of a list that has a character
    outside the base text, like the "z" of the specification, is ignored
    wherever it stands: the call is the call with the list without it. *)
Theorem to_text_ignores_values_that_do_not_occur (punct : bool)
  (keep : keep_arg) (keep_num : keep_num_arg) :
  (Forall (fun k => str_contains string_punctuation k = false)
     (keep_values keep) ->
   forall h series,
     to_text series punct keep keep_num h
     = to_text series punct KeepNone keep_num h)
  /\ (Forall (fun n => str_contains digits (str_of_int n) = false)
        (keep_num_values keep_num) ->
      forall h series,
        to_text series punct keep keep_num h
        = to_text series punct keep KeepNumNone h)
  /\ (forall (h : heap) series rows,
        h !! series = Some (TextSeries rows) ->
        exists s, returned (to_text series punct keep keep_num h) = Some (Ok s))
  /\ (forall ks1 k ks2,
        (exists c, c ∈ k /\ c ∉ string_punctuation) ->
        forall h series,
          to_text series punct (KeepList (ks1 ++ k :: ks2)) keep_num h
          = to_text series punct (KeepList (ks1 ++ ks2)) keep_num h)
  /\ (forall ns1 n ns2,
        (exists c, c ∈ str_of_int n /\ c ∉ digits) ->
        forall h series,
          to_text series punct keep (KeepNumList (ns1 ++ n :: ns2)) h
          = to_text series punct keep (KeepNumList (ns1 ++ ns2)) h)
  /\ (forall c : Z,
        c ∉ string_punctuation -> str_contains string_punctuation [c] = false)
  /\ returned (to_text 0%nat true (KeepList [py "z"]) KeepNumNone
                 [pd_Series [py "ab3"]])
     = returned (to_text 0%nat true KeepNone KeepNumNone [pd_Series [py "ab3"]]).
Proof.
  split; [|split; [|split; [|split; [|split; [|split]]]]].
  - intros Hk h series. unfold to_text.
    by rewrite (punct_numbers_keep_absent _ _ _ Hk).
  - intros Hn h series. unfold to_text.
    by rewrite (punct_numbers_keep_num_absent _ _ _ Hn).
  - intros h series rows Hl. rewrite (to_text_returned _ _ _ _ _ _ Hl). eauto.
  - intros ks1 k ks2 Hk h series. unfold to_text, punct_numbers. cbv zeta.
    replace (keep_truthy (KeepList (ks1 ++ k :: ks2))) with true
      by (by destruct ks1).
    rewrite (foldl_replace_foreign (fun k => k)) by done.
    by destruct (ks1 ++ ks2).
  - intros ns1 n ns2 Hn h series. unfold to_text, punct_numbers. cbv zeta.
    replace (keep_num_truthy (KeepNumList (ns1 ++ n :: ns2))) with true
      by (by destruct ns1).
    rewrite (foldl_replace_foreign str_of_int) by done.
    by destruct (ns1 ++ ns2).
  - intros c Hc. apply not_true_iff_false. intros Hin. apply Hc.
    by apply str_contains_char, Is_true_true.
  - reflexivity.
Qed.

Lemma to_text_ignores_values_that_do_not_occur_witness :
  Forall (fun k => str_contains string_punctuation k = false)
    (keep_values (KeepList [py "z"; py "!?"]))
  /\ to_text 0%nat true (KeepList [py "z"; py "!?"]) (KeepNumInt 7)
       [pd_Series [py "a!7"]]
     = to_text 0%nat true KeepNone (KeepNumInt 7) [pd_Series [py "a!7"]].
Proof.
  assert (Forall (fun k => str_contains string_punctuation k = false)
            (keep_values (KeepList [py "z"; py "!?"]))) as Hk
    by (repeat constructor).
  split; [exact Hk|].
  apply (proj1 (to_text_ignores_values_that_do_not_occur true
                  (KeepList [py "z"; py "!?"]) (KeepNumInt 7)) Hk).
Defined.

(** C10: the integer 0 as [keep_num] and the empty string as [keep] are
    false, so the call is the call without the argument, on every store
    and column; with [keep_num] 0 the digit 0 is among the characters to
    delete and is deleted from every element, and with the list [0] it is
    not among them and stays. *)
Theorem to_text_keep_num_zero_is_ignored (h : heap) (series : loc)
  (punct : bool) (keep : keep_arg) (keep_num : keep_num_arg)
  (rows : list (label * str)) :
  h !! series = Some (TextSeries rows) ->
  to_text series punct keep (KeepNumInt 0) h
    = to_text series punct keep KeepNumNone h
  /\ to_text series punct (KeepStr []) keep_num h
     = to_text series punct KeepNone keep_num h
  /\ 48 ∈ punct_numbers punct keep (KeepNumInt 0)
  /\ (exists rows',
        returned (to_text series punct keep (KeepNumInt 0) h)
          = Some (Ok (TextSeries rows'))
        /\ Forall (fun r => 48 ∉ r.2) rows')
  /\ (48 ∉ punct_numbers punct keep (KeepNumList [0]))
  /\ returned (to_text series punct keep (KeepNumList [0]) h)
     = Some (Ok (TextSeries
         (rows_map
            (filter (fun c => c ∉ punct_numbers punct keep (KeepNumList [0])))
            rows)))
  /\ returned (to_text 0%nat true KeepNone (KeepNumInt 0) [pd_Series [py "a0b1"]])
     = Some (Ok (pd_Series [py "ab"]))
  /\ returned (to_text 0%nat true KeepNone (KeepNumList [0])
                 [pd_Series [py "a0b1"]])
     = Some (Ok (pd_Series [py "a0b"])).
Proof.
  intros Hl.
  assert (48 ∈ punct_numbers punct keep (KeepNumInt 0)) as Hzero.
  { unfold punct_numbers. cbv zeta. cbn [keep_num_truthy].
    destruct punct; [apply elem_of_app; right|]; apply elem_of_cons; by left. }
  repeat (split; [done|]). split; [|split; [|split]].
  - eexists. split; [by apply to_text_returned|].
    unfold rows_map. apply Forall_fmap, Forall_forall. intros [i x] _. simpl.
    rewrite list_elem_of_filter. tauto.
  - unfold punct_numbers. cbv zeta. cbn [keep_num_truthy foldl].
    assert (48 ∉ str_replace (py "0123456789") (str_of_int 0) []) as Hd.
    { evaluate (str_replace (py "0123456789") (str_of_int 0) []).
      rewrite !elem_of_cons, elem_of_nil. lia. }
    destruct punct; [|done].
    intros [Hp|Hn]%elem_of_app; [|done].
    assert (48 ∈ string_punctuation) as Hp'.
    { destruct (keep_truthy keep); [|done].
      destruct keep as [|k|ks]; [done|by eapply str_replace_elem|].
      by apply (foldl_replace_elem (fun k => k)) in Hp. }
    revert Hp'. evaluate string_punctuation.
    rewrite !elem_of_cons, elem_of_nil. lia.
  - by apply to_text_returned.
  - split; reflexivity.
Qed.

Lemma to_text_keep_num_zero_is_ignored_witness :
  [pd_Series [py "a0b1"]] !! 0%nat = Some (TextSeries [(LInt 0, py "a0b1")])
  /\ to_text 0%nat true KeepNone (KeepNumInt 0) [pd_Series [py "a0b1"]]
     = to_text 0%nat true KeepNone KeepNumNone [pd_Series [py "a0b1"]].
Proof.
  split; [reflexivity|].
  apply (to_text_keep_num_zero_is_ignored [pd_Series [py "a0b1"]] 0%nat true
           KeepNone KeepNumNone [(LInt 0, py "a0b1")] eq_refl).
Defined.

(** * Further properties of the operations *)

(** ** Columns that are not text, and empty columns *)

(** X1: A numeric column has no [str] accessor, its elements have no
    [translate] method, and [re.sub] refuses them: [to_integer] raises
    [AttributeError] on every numeric column, and on one that is not empty
    [to_text] raises [AttributeError] and [to_specialChr] [TypeError], at
    the first element and before anything is allocated. *)
Theorem operations_raise_on_numeric_column (h : heap) (series : loc)
  (rows : list (label * num)) (dtype : option Dtype) (punct : bool)
  (keep : keep_arg) (keep_num : keep_num_arg) :
  h !! series = Some (NumSeries rows) ->
  to_integer series dtype h = Raise AttributeError h
  /\ (rows <> [] ->
      to_text series punct keep keep_num h = Raise AttributeError h
      /\ to_specialChr series h = Raise TypeError h).
Proof.
  intros Hl. split.
  - unfold to_integer, bind, Series_str_replace, bind.
    by rewrite (deref_Some _ _ _ Hl).
  - intros Hrows. destruct rows as [|r rows]; [done|].
    unfold to_text, to_specialChr, Series_apply, bind.
    by rewrite (deref_Some _ _ _ Hl).
Qed.

Lemma operations_raise_on_numeric_column_witness :
  [NumSeries [(LInt 0, NInt 7)]] !! 0%nat = Some (NumSeries [(LInt 0, NInt 7)])
  /\ to_integer 0%nat (Some dtype_int) [NumSeries [(LInt 0, NInt 7)]]
     = Raise AttributeError [NumSeries [(LInt 0, NInt 7)]].
Proof.
  split; [reflexivity|].
  exact (proj1 (operations_raise_on_numeric_column
                  [NumSeries [(LInt 0, NInt 7)]] 0%nat [(LInt 0, NInt 7)]
                  (Some dtype_int) true KeepNone KeepNumNone eq_refl)).
Defined.

(** X2: On an empty column of text nothing can fail: [to_integer] returns an
    empty numeric column for every target type, [to_text] and
    [to_specialChr] an empty column of text for all arguments. *)
Theorem operations_on_empty_column (h : heap) (series : loc)
  (dtype : option Dtype) (punct : bool) (keep : keep_arg)
  (keep_num : keep_num_arg) :
  h !! series = Some (TextSeries []) ->
  returned (to_integer series dtype h) = Some (Ok (NumSeries []))
  /\ returned (to_text series punct keep keep_num h) = Some (Ok (TextSeries []))
  /\ returned (to_specialChr series h) = Some (Ok (TextSeries [])).
Proof.
  intros Hl. split; [|split].
  - by rewrite (to_integer_returned _ _ _ _ Hl).
  - by rewrite (to_text_returned _ _ _ _ _ _ Hl).
  - rewrite (to_specialChr_text _ _ _ Hl). simpl. by rewrite lookup_new.
Qed.

Lemma operations_on_empty_column_witness :
  [pd_Series []] !! 0%nat = Some (TextSeries [])
  /\ returned (to_integer 0%nat (Some dtype_int) [pd_Series []])
     = Some (Ok (NumSeries [])).
Proof.
  split; [reflexivity|].
  exact (proj1 (operations_on_empty_column [pd_Series []] 0%nat
                  (Some dtype_int) true KeepNone KeepNumNone eq_refl)).
Defined.

(** ** What [to_text] and [to_specialChr] can delete *)

Lemma elementwise_rows_map (R : list Z -> list Z -> Prop) (g : list Z -> list Z)
  (rows : list (label * list Z)) :
  (forall x, R x (g x)) ->
  elementwise R (TextSeries rows) (TextSeries (rows_map g rows)).
Proof.
  intros HR. unfold elementwise, rows_map.
  induction rows as [|[i x] rows IH]; csimpl; constructor; [|done].
  split; [done|apply HR].
Qed.

(** The characters to delete are punctuation and digits, whatever the
    arguments. *)
Lemma punct_numbers_base (punct : bool) (keep : keep_arg)
  (keep_num : keep_num_arg) (c : Z) :
  c ∈ punct_numbers punct keep keep_num ->
  (punct = true /\ c ∈ string_punctuation) \/ c ∈ digits.
Proof.
  unfold punct_numbers. cbv zeta.
  assert (forall p : list Z,
    c ∈ (if keep_truthy keep then
           match keep with
           | KeepStr k => str_replace p k []
           | KeepList ks => foldl (fun p k => str_replace p k []) p ks
           | KeepNone => p
           end
         else p) -> c ∈ p) as Hp.
  { intros p. destruct (keep_truthy keep); [|done].
    destruct keep as [|k|ks]; [done|apply str_replace_elem|].
    apply (foldl_replace_elem (fun k => k)). }
  assert (forall d : list Z,
    c ∈ (if keep_num_truthy keep_num then
           match keep_num with
           | KeepNumInt n => str_replace d (str_of_int n) []
           | KeepNumList ns =>
               foldl (fun d n => str_replace d (str_of_int n) []) d ns
           | KeepNumNone => d
           end
         else d) -> c ∈ d) as Hd.
  { intros d. destruct (keep_num_truthy keep_num); [|done].
    destruct keep_num as [|n|ns]; [done|apply str_replace_elem|].
    apply (foldl_replace_elem str_of_int). }
  destruct punct.
  - intros [Hc%Hp|Hc%Hd]%elem_of_app; [by left|by right].
  - intros Hc%Hd. by right.
Qed.

Lemma filter_filter_implied {A} (P Q : A -> Prop)
  `{!forall a, Decision (P a), !forall a, Decision (Q a)} (x : list A) :
  (forall a, P a -> Q a) -> filter P (filter Q x) = filter P x.
Proof. intros HPQ. by apply list_filter_filter_l. Qed.

(** X3: For all arguments, [to_text] returns a column with the labels of its
    input in which every element is a subsequence of the input element
    (nothing is added, replaced or moved) and holds every character of it
    that is neither punctuation nor a digit; without [punct] it holds
    every character that is not a digit, and [keep] has no effect. *)
Theorem to_text_deletes_only_punctuation_and_digits (h : heap) (series : loc)
  (punct : bool) (keep : keep_arg) (keep_num : keep_num_arg)
  (rows : list (label * str)) :
  h !! series = Some (TextSeries rows) ->
  (exists s',
     returned (to_text series punct keep keep_num h) = Some (Ok s')
     /\ elementwise (fun x x' =>
          x' `sublist_of` x
          /\ filter (fun c => c ∉ string_punctuation ++ digits) x'
             = filter (fun c => c ∉ string_punctuation ++ digits) x
          /\ (punct = false ->
              filter (fun c => c ∉ digits) x' = filter (fun c => c ∉ digits) x))
          (TextSeries rows) s')
  /\ to_text series false keep keep_num h
     = to_text series false KeepNone keep_num h.
Proof.
  intros Hl. split; [|done].
  eexists. split; [by apply to_text_returned|].
  apply elementwise_rows_map. intros x. split; [apply sublist_filter|]. split.
  - apply filter_filter_implied. intros c Hc Hin. apply Hc.
    apply punct_numbers_base in Hin as [[_ Hin]|Hin];
      apply elem_of_app; [by left|by right].
  - intros ->. apply filter_filter_implied. intros c Hc Hin. apply Hc.
    by apply punct_numbers_base in Hin as [[[=] _]|Hin].
Qed.

Lemma to_text_deletes_only_punctuation_and_digits_witness :
  [pd_Series [py "a, b1"]] !! 0%nat = Some (TextSeries [(LInt 0, py "a, b1")])
  /\ exists s',
       returned (to_text 0%nat false (KeepStr (py ",")) (KeepNumInt 12)
                   [pd_Series [py "a, b1"]]) = Some (Ok s')
       /\ elementwise (fun x x' =>
            x' `sublist_of` x
            /\ filter (fun c => c ∉ string_punctuation ++ digits) x'
               = filter (fun c => c ∉ string_punctuation ++ digits) x
            /\ (false = false ->
                filter (fun c => c ∉ digits) x' = filter (fun c => c ∉ digits) x))
            (TextSeries [(LInt 0, py "a, b1")]) s'.
Proof.
  split; [reflexivity|].
  exact (proj1 (to_text_deletes_only_punctuation_and_digits
                  [pd_Series [py "a, b1"]] 0%nat false (KeepStr (py ","))
                  (KeepNumInt 12) [(LInt 0, py "a, b1")] eq_refl)).
Defined.

(** ** Composing the operations *)

(** X4: [to_text] is idempotent: applied with the same arguments to the column
    it returned, it returns an equal column; this holds on every store and
    for every reference, also where the first application raises. *)
Theorem to_text_idempotent (h : heap) (series : loc) (punct : bool)
  (keep : keep_arg) (keep_num : keep_num_arg) :
  returned ((do once <- to_text series punct keep keep_num ;
             to_text once punct keep keep_num) h)
  = returned (to_text series punct keep keep_num h).
Proof.
  unfold bind. destruct (h !! series) as [[rows|rows]|] eqn:Hl.
  - rewrite (to_text_text _ _ _ _ _ _ Hl).
    erewrite to_text_text by apply lookup_new.
    simpl. rewrite !lookup_new. simpl. do 3 f_equal.
    rewrite rows_map_map. apply rows_map_ext. intros x.
    by apply list_filter_filter_l.
  - unfold to_text, Series_apply, bind.
    rewrite (deref_Some _ _ _ Hl). destruct rows as [|[i n] rows]; [|done].
    unfold new at 1. rewrite (deref_Some _ _ (NumSeries [])) by apply lookup_new.
    unfold new. simpl. by rewrite !lookup_new.
  - unfold to_text, Series_apply, bind, deref. by rewrite Hl.
Qed.

(** X5: On a column of text [to_text] and [to_specialChr] commute: the column
    returned is the same in either order, for all arguments of [to_text]. *)
Theorem to_text_to_specialChr_commute (h : heap) (series : loc) (punct : bool)
  (keep : keep_arg) (keep_num : keep_num_arg) (rows : list (label * str)) :
  h !! series = Some (TextSeries rows) ->
  returned ((do cleaned <- to_text series punct keep keep_num ;
             to_specialChr cleaned) h)
  = returned ((do cleaned <- to_specialChr series ;
               to_text cleaned punct keep keep_num) h).
Proof.
  intros Hl. unfold bind.
  rewrite (to_text_text _ _ _ _ _ _ Hl), (to_specialChr_text _ _ _ Hl).
  erewrite to_specialChr_text by apply lookup_new.
  erewrite to_text_text by apply lookup_new.
  simpl. rewrite !lookup_new. simpl. do 3 f_equal.
  rewrite !rows_map_map. apply rows_map_ext. intros x. unfold delete_alnum.
  rewrite !list_filter_filter. apply list_filter_iff. tauto.
Qed.

Lemma to_text_to_specialChr_commute_witness :
  [pd_Series [py "a, 1!"]] !! 0%nat = Some (TextSeries [(LInt 0, py "a, 1!")])
  /\ returned ((do cleaned <- to_text 0%nat true (KeepStr (py ",")) KeepNumNone ;
                to_specialChr cleaned) [pd_Series [py "a, 1!"]])
     = returned ((do cleaned <- to_specialChr 0%nat ;
                  to_text cleaned true (KeepStr (py ",")) KeepNumNone)
                   [pd_Series [py "a, 1!"]]).
Proof.
  split; [reflexivity|].
  exact (to_text_to_specialChr_commute [pd_Series [py "a, 1!"]] 0%nat true
           (KeepStr (py ",")) KeepNumNone [(LInt 0, py "a, 1!")] eq_refl).
Defined.

(** ** The arguments of [to_text] *)

(** X6: A string given as [keep] acts as the list that holds it, and an
    integer other than 0 given as [keep_num] as the list that holds it, on
    every store and column. *)
Theorem to_text_scalar_as_singleton_list (h : heap) (series : loc)
  (punct : bool) (keep : keep_arg) (keep_num : keep_num_arg) (k : str)
  (n : Z) :
  n <> 0 ->
  to_text series punct (KeepStr k) keep_num h
    = to_text series punct (KeepList [k]) keep_num h
  /\ to_text series punct keep (KeepNumInt n) h
     = to_text series punct keep (KeepNumList [n]) h.
Proof.
  intros Hn. split.
  - unfold to_text, punct_numbers. cbv zeta. by destruct k.
  - unfold to_text, punct_numbers. cbv zeta. by destruct n.
Qed.

Lemma to_text_scalar_as_singleton_list_witness :
  2 <> 0
  /\ to_text 0%nat true KeepNone (KeepNumInt 2) [pd_Series [py "a12"]]
     = to_text 0%nat true KeepNone (KeepNumList [2]) [pd_Series [py "a12"]].
Proof.
  assert (2 <> 0) as Hn by lia.
  split; [exact Hn|].
  exact (proj2 (to_text_scalar_as_singleton_list [pd_Series [py "a12"]] 0%nat
                  true KeepNone KeepNumNone [] 2 Hn)).
Defined.

(** X7: With single characters in [keep] and single digits in [keep_num], only
    the characters named count: two calls whose arguments name the same
    characters and the same digits, in any order and any number of times,
    are the same call on every store and column. *)
Theorem to_text_depends_on_named_characters (punct : bool)
  (keep keep' : keep_arg) (keep_num keep_num' : keep_num_arg) :
  keep_single_chars keep -> keep_single_chars keep' ->
  keep_num_single_digits keep_num -> keep_num_single_digits keep_num' ->
  kept_chars keep = kept_chars keep' ->
  kept_digits keep_num = kept_digits keep_num' ->
  forall (h : heap) (series : loc),
    to_text series punct keep keep_num h
    = to_text series punct keep' keep_num' h.
Proof.
  intros Hk Hk' Hn Hn' Hc Hd h series. unfold to_text.
  by rewrite (punct_numbers_single _ _ _ Hk Hn),
    (punct_numbers_single _ _ _ Hk' Hn'), Hc, Hd.
Qed.

Lemma to_text_depends_on_named_characters_witness :
  to_text 0%nat true (KeepList [py "!"; py ","; py "!"]) (KeepNumList [3; 1])
    [pd_Series [py "a, 13!"]]
  = to_text 0%nat true (KeepList [py ","; py "!"]) (KeepNumList [1; 3; 3])
      [pd_Series [py "a, 13!"]].
Proof.
  apply (to_text_depends_on_named_characters true
           (KeepList [py "!"; py ","; py "!"]) (KeepList [py ","; py "!"])
           (KeepNumList [3; 1]) (KeepNumList [1; 3; 3])).
  - repeat constructor.
  - repeat constructor.
  - repeat constructor; lia.
  - repeat constructor; lia.
  - apply set_eq. intros c. unfold kept_chars. rewrite !elem_of_list_to_set.
    evaluate (concat [py "!"; py ","; py "!"]). evaluate (concat [py ","; py "!"]).
    rewrite !elem_of_cons, elem_of_nil. tauto.
  - apply set_eq. intros c. unfold kept_digits. rewrite !elem_of_list_to_set.
    evaluate ((fun n => 48 + n) <$> [3; 1]).
    evaluate ((fun n => 48 + n) <$> [1; 3; 3]).
    rewrite !elem_of_cons, elem_of_nil. tauto.
Defined.

(** ** What [to_integer] reads *)

Lemma decimal_in_bounds (runs : list (Z * Z)) (c d : Z) :
  decimal_in runs c = Some d -> 0 <= d <= 9.
Proof.
  induction runs as [|[lo hi] runs IH]; simpl; [done|].
  destruct (in_range lo hi c); [|done].
  intros [= <-]. pose proof (Z.mod_pos_bound (c - lo) 10). lia.
Qed.

Lemma isdecimal_value (c : Z) :
  Py_UNICODE_ISDECIMAL c -> exists d, unicode_decimal c = Some d /\ 0 <= d <= 9.
Proof.
  unfold Py_UNICODE_ISDECIMAL. rewrite bool_decide_spec. intros [d Hd].
  exists d. split; [done|]. by eapply decimal_in_bounds.
Qed.

Lemma digits_value_decimal (x : list Z) (acc : Z) :
  Forall (fun c => Py_UNICODE_ISDECIMAL c) x -> 0 <= acc ->
  exists z, digits_value acc x = Some z /\ 0 <= z.
Proof.
  intros Hx. revert acc. induction Hx as [|c x Hc _ IH]; intros acc Hacc.
  - by exists acc.
  - destruct (isdecimal_value c Hc) as (d & Hd & Hd').
    simpl. rewrite Hd. apply IH. lia.
Qed.

Lemma cleaned_decimal (x : list Z) :
  Forall (fun c => Py_UNICODE_ISDECIMAL c)
    (filter (fun c => Py_UNICODE_ISDECIMAL c) x).
Proof. apply Forall_forall. by intros c [Hc _]%list_elem_of_filter. Qed.

(** The digits of an element have a value unless there are none. *)
Lemma int_of_cleaned (x : list Z) :
  (filter (fun c => Py_UNICODE_ISDECIMAL c) x = []
   /\ int_of_digits (filter (fun c => Py_UNICODE_ISDECIMAL c) x) = None)
  \/ (filter (fun c => Py_UNICODE_ISDECIMAL c) x <> []
      /\ exists z,
           int_of_digits (filter (fun c => Py_UNICODE_ISDECIMAL c) x) = Some z
           /\ 0 <= z).
Proof.
  pose proof (cleaned_decimal x) as Hdec.
  destruct (filter (fun c => Py_UNICODE_ISDECIMAL c) x) as [|c y]; [by left|].
  right. split; [done|]. by apply digits_value_decimal.
Qed.

Lemma rows_mapM_Ok_Forall {A B} (f : A -> result B) (P : B -> Prop)
  (rows : list (label * A)) (rows' : list (label * B)) :
  rows_mapM f rows = Ok rows' ->
  (forall a b, f a = Ok b -> P b) ->
  Forall (fun r => P r.2) rows'.
Proof.
  intros Hrows HP. revert rows' Hrows. unfold rows_mapM.
  induction rows as [|[i a] rows IH]; intros rows'; simpl.
  - by intros [= <-].
  - destruct (f a) as [b|e] eqn:Hfa; simpl; [|done].
    destruct (result_mapM _ rows) as [bs|e]; simpl; [|done].
    intros [= <-]. constructor; [by eapply HP|by apply IH].
Qed.

(** X9: [to_integer] with [int] never returns a negative number, the sign of
    an element being deleted with the other non-digits: every element of
    a column it returns is an integer from 0 to the largest of the
    width. *)
Theorem to_integer_int_is_nonnegative (h : heap) (series : loc) (bits : Z)
  (rows : list (label * str)) (s' : Series) :
  h !! series = Some (TextSeries rows) ->
  returned (to_integer series (Some (np_int bits)) h) = Some (Ok s') ->
  exists nums,
    s' = NumSeries nums
    /\ Forall (fun r => exists z, r.2 = NInt z /\ 0 <= z < 2 ^ (bits - 1)) nums.
Proof.
  intros Hl. rewrite (to_integer_returned _ _ _ _ Hl).
  unfold extract_numeric_with. rewrite rows_mapM_map.
  destruct (rows_mapM _ rows) as [nums|e] eqn:Hnums; simpl; [|done].
  intros [= <-]. exists nums. split; [done|].
  apply (rows_mapM_Ok_Forall _
           (fun n => exists z, n = NInt z /\ 0 <= z < 2 ^ (bits - 1)) _ _ Hnums).
  intros x n. simpl.
  destruct (int_of_cleaned x) as [[_ Hx]|(_ & z & Hx & Hz)]; rewrite Hx; [done|].
  destruct (_ && _) eqn:Hrange; [|done].
  intros [= <-]. exists z. split; [done|].
  apply andb_true_iff in Hrange as [_ Hlt%Z.ltb_lt]. lia.
Qed.

Lemma to_integer_int_is_nonnegative_witness :
  [pd_Series [py "-5"]] !! 0%nat = Some (TextSeries [(LInt 0, py "-5")])
  /\ returned (to_integer 0%nat (Some (np_int 64)) [pd_Series [py "-5"]])
     = Some (Ok (NumSeries [(LInt 0, NInt 5)]))
  /\ exists nums,
       NumSeries [(LInt 0, NInt 5)] = NumSeries nums
       /\ Forall (fun r => exists z, r.2 = NInt z /\ 0 <= z < 2 ^ (64 - 1)) nums.
Proof.
  split; [reflexivity|]. split; [reflexivity|].
  exact (to_integer_int_is_nonnegative [pd_Series [py "-5"]] 0%nat 64
           [(LInt 0, py "-5")] (NumSeries [(LInt 0, NInt 5)]) eq_refl eq_refl).
Defined.

Lemma float_cast_Err (x : list Z) (e : exn) :
  astype_str dtype_float x = Err e -> e = ValueError /\ int_of_digits x = None.
Proof.
  unfold dtype_float. cbn [astype_str].
  destruct (int_of_digits x); [done|]. by intros [= <-].
Qed.

(** X10: When [to_integer] raises.  With [float] (also as the default) it
    raises exactly when some element holds no decimal digit, and then
    [ValueError]: a number of any size is cast, to infinity if need be.
    With [int], on elements of at most 4300 characters (as many digits as
    every interpreter reads), it raises exactly when some element holds no
    decimal digit or its digits make a number that does not fit the
    width. *)
Theorem to_integer_raises_exactly (h : heap) (series : loc)
  (rows : list (label * str)) :
  h !! series = Some (TextSeries rows) ->
  let clean := filter (fun c : Z => Py_UNICODE_ISDECIMAL c) in
  ((exists e, returned (to_integer series None h) = Some (Err e))
   <-> (exists r, r ∈ rows /\ clean r.2 = []))
  /\ (forall e, returned (to_integer series None h) = Some (Err e) ->
      e = ValueError)
  /\ (forall bits,
        Forall (fun r => (length r.2 <= 4300)%nat) rows ->
        (exists e,
           returned (to_integer series (Some (np_int bits)) h) = Some (Err e))
        <-> (exists r, r ∈ rows
             /\ (clean r.2 = []
                 \/ exists z, int_of_digits (clean r.2) = Some z
                      /\ 2 ^ (bits - 1) <= z))).
Proof.
  intros Hl clean.
  assert (forall d,
    (exists e, returned (to_integer series d h) = Some (Err e))
    <-> (exists r e, r ∈ rows
         /\ astype_str (default dtype_float d) (clean r.2) = Err e)) as Hiff.
  { intros d. rewrite (to_integer_returned _ _ _ _ Hl).
    unfold extract_numeric_with. rewrite rows_mapM_map.
    rewrite <- (rows_mapM_Err
      (fun x => astype_str (default dtype_float d) (clean x))).
    unfold clean. destruct (rows_mapM _ rows) as [nums|e0]; simpl; split;
      intros [e [= ?]]; subst; eauto. }
  split; [|split].
  - rewrite Hiff. split.
    + intros (r & e & Hr & He). exists r. split; [done|]. simpl in He.
      by destruct (int_of_cleaned r.2) as [[? _]|(_ & z & Hz & _)];
        [|unfold clean in He; rewrite Hz in He].
    + intros (r & Hr & He). exists r, ValueError. split; [done|].
      simpl. by rewrite He.
  - rewrite (to_integer_returned _ _ _ _ Hl).
    unfold extract_numeric_with. rewrite rows_mapM_map.
    destruct (rows_mapM _ rows) as [nums|e'] eqn:Hrows; simpl; [done|].
    intros e [= ->]. apply rows_mapM_Err_elem in Hrows as (r & _ & He).
    by apply float_cast_Err in He as [-> _].
  - intros bits _. rewrite Hiff. split.
    + intros (r & e & Hr & He). exists r. split; [done|]. simpl in He.
      destruct (int_of_cleaned r.2) as [[? _]|(_ & z & Hz & Hz')]; [by left|].
      right. exists z. split; [done|]. unfold clean in He. rewrite Hz in He.
      destruct (_ && _) eqn:Hrange; [done|].
      apply andb_false_iff in Hrange as [Hneg%Z.leb_gt|Hge%Z.ltb_ge]; [|done].
      pose proof (Z.pow_nonneg 2 (bits - 1)). lia.
    + intros (r & Hr & [He|(z & Hz & Hge)]).
      * exists r, ValueError. split; [done|]. simpl. by rewrite He.
      * exists r, OverflowError. split; [done|]. simpl. rewrite Hz.
        replace (z <? 2 ^ (bits - 1)) with false
          by (symmetry; by apply Z.ltb_ge).
        by rewrite andb_false_r.
Qed.

Lemma to_integer_raises_exactly_witness :
  [pd_Series [py "12"; py "n/a"]] !! 0%nat
    = Some (TextSeries [(LInt 0, py "12"); (LInt 1, py "n/a")])
  /\ forall e,
       returned (to_integer 0%nat None [pd_Series [py "12"; py "n/a"]])
       = Some (Err e) ->
       e = ValueError.
Proof.
  split; [reflexivity|].
  exact (proj1 (proj2 (to_integer_raises_exactly
                         [pd_Series [py "12"; py "n/a"]] 0%nat
                         [(LInt 0, py "12"); (LInt 1, py "n/a")] eq_refl))).
Defined.

Lemma rows_mapM_first_Err {A B} (f : A -> result B)
  (pre post : list (label * A)) (r : label * A) (e : exn) :
  Forall (fun p => exists b, f p.2 = Ok b) pre ->
  f r.2 = Err e ->
  rows_mapM f (pre ++ r :: post) = Err e.
Proof.
  intros Hpre Hr. unfold rows_mapM.
  induction Hpre as [|p pre [b Hp] _ IH]; simpl.
  - by rewrite Hr.
  - rewrite Hp. simpl. by rewrite IH.
Qed.

(** X11: The exception of [to_integer] is that of the first element, in the
    order of the column, that cannot be cast; what follows it is not
    looked at. *)
Theorem to_integer_raises_first_failure (h : heap) (series : loc)
  (dtype : option Dtype) (pre post : list (label * str)) (r : label * str)
  (e : exn) :
  let clean := filter (fun c : Z => Py_UNICODE_ISDECIMAL c) in
  let cast := astype_str (default dtype_float dtype) in
  h !! series = Some (TextSeries (pre ++ r :: post)) ->
  Forall (fun p => exists n, cast (clean p.2) = Ok n) pre ->
  cast (clean r.2) = Err e ->
  returned (to_integer series dtype h) = Some (Err e).
Proof.
  intros clean cast Hl Hpre Hr. subst clean cast.
  rewrite (to_integer_returned _ _ _ _ Hl).
  unfold extract_numeric_with. rewrite rows_mapM_map.
  by erewrite rows_mapM_first_Err; [|exact Hpre|exact Hr].
Qed.

Lemma to_integer_raises_first_failure_witness :
  returned (to_integer 0%nat (Some dtype_int)
              [pd_Series [py "7"; py "99999999999999999999"; py "x"]])
  = Some (Err OverflowError).
Proof.
  apply (to_integer_raises_first_failure
           [pd_Series [py "7"; py "99999999999999999999"; py "x"]] 0%nat
           (Some dtype_int) [(LInt 0, py "7")] [(LInt 2, py "x")]
           (LInt 1, py "99999999999999999999") OverflowError eq_refl).
  - constructor; [|constructor]. by exists (NInt 7).
  - reflexivity.
Defined.

(** X12: [to_integer] reads the decimal digits of an element and nothing else:
    two columns with the same labels whose elements have the same digits
    in the same order give the same result, so a sign, a decimal point,
    blanks and letters in an element change nothing. *)
Theorem to_integer_reads_only_digits (h h' : heap) (series series' : loc)
  (dtype : option Dtype) (rows rows' : list (label * str)) :
  h !! series = Some (TextSeries rows) ->
  h' !! series' = Some (TextSeries rows') ->
  elementwise (fun x x' =>
      filter (fun c => Py_UNICODE_ISDECIMAL c) x
      = filter (fun c => Py_UNICODE_ISDECIMAL c) x')
    (TextSeries rows) (TextSeries rows') ->
  returned (to_integer series dtype h) = returned (to_integer series' dtype h').
Proof.
  intros Hl Hl' Hrows.
  rewrite (to_integer_returned _ _ _ _ Hl), (to_integer_returned _ _ _ _ Hl').
  unfold extract_numeric_with.
  assert (rows_map (filter (fun c => Py_UNICODE_ISDECIMAL c)) rows
          = rows_map (filter (fun c => Py_UNICODE_ISDECIMAL c)) rows') as Heq;
    [|by rewrite Heq].
  clear Hl Hl'. unfold rows_map. simpl in Hrows.
  induction Hrows as [|[i x] [i' x'] rows rows' [Hi Hx] _ IH]; [done|].
  simpl in Hi, Hx. csimpl. rewrite IH. unfold prod_map. simpl. by rewrite Hi, Hx.
Qed.

Lemma to_integer_reads_only_digits_witness :
  returned (to_integer 0%nat (Some dtype_int) [pd_Series [py "-1.5 kg"]])
  = returned (to_integer 0%nat (Some dtype_int) [pd_Series [py "15"]]).
Proof.
  apply (to_integer_reads_only_digits [pd_Series [py "-1.5 kg"]]
           [pd_Series [py "15"]] 0%nat 0%nat (Some dtype_int)
           [(LInt 0, py "-1.5 kg")] [(LInt 0, py "15")] eq_refl eq_refl).
  constructor; [|constructor]. split; reflexivity.
Defined.

Lemma delete_alnum_no_decimal (x : list Z) :
  Forall (fun c => is_ascii c) x ->
  filter (fun c => Py_UNICODE_ISDECIMAL c) (delete_alnum x) = [].
Proof.
  intros Hx. unfold delete_alnum. rewrite list_filter_filter.
  induction Hx as [|c x Hc _ IH]; [done|].
  rewrite filter_cons_False; [done|].
  rewrite (ascii_decimal c Hc). unfold is_ascii_alnum.
  rewrite !orb_True. tauto.
Qed.

(** X15: After [to_specialChr] there is nothing left for [to_integer]: on a
    column of text whose first element is ASCII, [to_integer] applied to
    the column that [to_specialChr] returns raises the exception that the
    target type raises on the empty string, [ValueError] for [int] and
    [float]. *)
Theorem to_integer_after_to_specialChr_raises (h : heap) (series : loc)
  (dtype : option Dtype) (r : label * str) (rows : list (label * str))
  (e : exn) :
  h !! series = Some (TextSeries (r :: rows)) ->
  Forall (fun c => is_ascii c) r.2 ->
  astype_str (default dtype_float dtype) [] = Err e ->
  returned ((do cleaned <- to_specialChr series ; to_integer cleaned dtype) h)
  = Some (Err e).
Proof.
  intros Hl Hr He. unfold bind. rewrite (to_specialChr_text _ _ _ Hl).
  erewrite to_integer_returned by apply lookup_new.
  unfold extract_numeric_with. rewrite !rows_mapM_map.
  rewrite (rows_mapM_first_Err _ [] rows r e); [done|constructor|].
  by rewrite (delete_alnum_no_decimal _ Hr).
Qed.

Lemma to_integer_after_to_specialChr_raises_witness :
  returned ((do cleaned <- to_specialChr 0%nat ; to_integer cleaned None)
              [pd_Series [py "12.5"; py "x"]])
  = Some (Err ValueError).
Proof.
  apply (to_integer_after_to_specialChr_raises [pd_Series [py "12.5"; py "x"]]
           0%nat None (LInt 0, py "12.5") [(LInt 1, py "x")] ValueError eq_refl).
  - repeat constructor.
  - reflexivity.
Defined.

(** X16: A call of [to_text] that deletes no decimal digit does not change what
    [to_integer] reads: [to_integer] applied to the column that such a
    call returns gives the result of [to_integer] on the column itself.
    Keeping all ten digits gives such a call. *)
Theorem to_integer_after_to_text_keeping_digits (h : heap) (series : loc)
  (dtype : option Dtype) (punct : bool) (keep : keep_arg)
  (keep_num : keep_num_arg) (rows : list (label * str)) :
  h !! series = Some (TextSeries rows) ->
  Forall (fun c => ¬ Py_UNICODE_ISDECIMAL c) (punct_numbers punct keep keep_num) ->
  returned ((do cleaned <- to_text series punct keep keep_num ;
             to_integer cleaned dtype) h)
  = returned (to_integer series dtype h).
Proof.
  intros Hl Hnd. unfold bind. rewrite (to_text_text _ _ _ _ _ _ Hl).
  erewrite to_integer_returned by apply lookup_new.
  rewrite (to_integer_returned _ _ _ _ Hl).
  unfold extract_numeric_with. do 3 f_equal.
  rewrite rows_map_map. apply rows_map_ext. intros x.
  apply filter_filter_implied. intros c Hc Hin.
  rewrite Forall_forall in Hnd. by apply (Hnd c).
Qed.

Lemma to_integer_after_to_text_keeping_digits_witness :
  returned ((do cleaned <- to_text 0%nat true KeepNone
                             (KeepNumList [0; 1; 2; 3; 4; 5; 6; 7; 8; 9]) ;
             to_integer cleaned (Some dtype_int)) [pd_Series [py "1,250!"]])
  = returned (to_integer 0%nat (Some dtype_int) [pd_Series [py "1,250!"]]).
Proof.
  apply (to_integer_after_to_text_keeping_digits [pd_Series [py "1,250!"]]
           0%nat (Some dtype_int) true KeepNone
           (KeepNumList [0; 1; 2; 3; 4; 5; 6; 7; 8; 9])
           [(LInt 0, py "1,250!")] eq_refl).
  apply (bool_decide_unpack _). vm_compute. exact I.
Defined.

(** ** The value that [to_integer] reads *)

Lemma rows_mapM_lookup {A B} (f : A -> result B) (rows : list (label * A))
  (rows' : list (label * B)) (k : nat) (i : label) (a : A) :
  rows_mapM f rows = Ok rows' ->
  rows !! k = Some (i, a) ->
  exists b, f a = Ok b /\ rows' !! k = Some (i, b).
Proof.
  unfold rows_mapM. revert rows' k.
  induction rows as [|[j a'] rows IH]; intros rows' k; simpl; [done|].
  destruct (f a') as [b'|e] eqn:Hfa; simpl; [|done].
  destruct (result_mapM _ rows) as [bs|e]; simpl; [|done].
  intros [= <-]. destruct k as [|k]; simpl.
  - intros [= -> ->]. eauto.
  - by apply IH.
Qed.

Lemma filter_Forall_id {A} (P : A -> Prop) `{!forall a, Decision (P a)}
  (x : list A) :
  Forall P x -> filter P x = x.
Proof.
  induction 1 as [|a x Ha _ IH]; [done|]. by rewrite filter_cons_True, IH.
Qed.

(** Digits appended to a number shift it by their count. *)
Lemma digits_value_shift (b : list Z) :
  Forall (fun c => Py_UNICODE_ISDECIMAL c) b ->
  exists vb,
    digits_value 0 b = Some vb
    /\ forall acc,
         digits_value acc b = Some (acc * 10 ^ Z.of_nat (length b) + vb).
Proof.
  induction 1 as [|c b Hc _ (vb & Hvb & IH)].
  - exists 0. split; [done|]. intros acc.
    cbn [digits_value length Z.of_nat]. f_equal; lia.
  - destruct (isdecimal_value c Hc) as (d & Hd & _).
    exists (d * 10 ^ Z.of_nat (length b) + vb). split.
    + cbn [digits_value]. rewrite Hd, IH. f_equal; lia.
    + intros acc. cbn [digits_value length]. rewrite Hd, IH.
      rewrite Nat2Z.inj_succ, Z.pow_succ_r by lia. f_equal; lia.
Qed.

Lemma digits_value_app (a b : list Z) (acc : Z) :
  digits_value acc (a ++ b)
  = match digits_value acc a with
    | Some v => digits_value v b
    | None => None
    end.
Proof.
  revert acc. induction a as [|c a IH]; intros acc; simpl; [done|].
  by destruct (unicode_decimal c).
Qed.

(** X13: The decimal point joins what it should separate.  In every column, an
    element made of the digits [a], one character that is no digit, and
    the digits [b] is read by [to_integer] with [int] as the number of
    [a] shifted by the number of digits of [b], plus the number of [b]:
    "123.45" is 123 * 100 + 45. *)
Theorem to_integer_joins_digits_around_separator (h : heap) (series : loc)
  (bits : Z) (rows : list (label * str)) (nums : list (label * num))
  (k : nat) (i : label) (a b : str) (sep : Z) :
  h !! series = Some (TextSeries rows) ->
  rows !! k = Some (i, a ++ sep :: b) ->
  Forall (fun c => Py_UNICODE_ISDECIMAL c) a ->
  Forall (fun c => Py_UNICODE_ISDECIMAL c) b ->
  a <> [] ->
  ¬ Py_UNICODE_ISDECIMAL sep ->
  returned (to_integer series (Some (np_int bits)) h) = Some (Ok (NumSeries nums)) ->
  exists va vb,
    int_of_digits a = Some va
    /\ digits_value 0 b = Some vb
    /\ nums !! k = Some (i, NInt (va * 10 ^ Z.of_nat (length b) + vb)).
Proof.
  intros Hl Hk Ha Hb Hne Hsep. rewrite (to_integer_returned _ _ _ _ Hl).
  unfold extract_numeric_with. rewrite rows_mapM_map.
  destruct (rows_mapM _ rows) as [nums'|e] eqn:Hrows; simpl; [|done].
  intros [= ->].
  destruct (rows_mapM_lookup _ _ _ _ _ _ Hrows Hk) as (n & Hn & Hnk).
  destruct (digits_value_decimal a 0 Ha) as (va & Hva & _); [done|].
  destruct (digits_value_shift b Hb) as (vb & Hvb & Hshift).
  exists va, vb. split; [by destruct a|]. split; [done|].
  rewrite filter_app, filter_cons_False, !filter_Forall_id in Hn by done.
  simpl in Hn.
  assert (int_of_digits (a ++ b)
          = Some (va * 10 ^ Z.of_nat (length b) + vb)) as Hab.
  { destruct a as [|c a]; [done|].
    change (int_of_digits ((c :: a) ++ b)) with (digits_value 0 ((c :: a) ++ b)).
    by rewrite digits_value_app, Hva, Hshift. }
  rewrite Hab in Hn. destruct (_ && _); [|done].
  by injection Hn as <-.
Qed.

Lemma to_integer_joins_digits_around_separator_witness :
  exists va vb,
    int_of_digits (py "123") = Some va
    /\ digits_value 0 (py "45") = Some vb
    /\ [(LInt 0, NInt 7); (LInt 1, NInt 12345)] !! 1%nat
       = Some (LInt 1, NInt (va * 10 ^ Z.of_nat (length (py "45")) + vb)).
Proof.
  apply (to_integer_joins_digits_around_separator
           [pd_Series [py "7"; py "123.45"]] 0%nat 64
           [(LInt 0, py "7"); (LInt 1, py "123.45")]
           [(LInt 0, NInt 7); (LInt 1, NInt 12345)] 1%nat (LInt 1)
           (py "123") (py "45") 46 eq_refl eq_refl).
  - apply (bool_decide_unpack _). vm_compute. exact I.
  - apply (bool_decide_unpack _). vm_compute. exact I.
  - discriminate.
  - apply (bool_decide_unpack _). vm_compute. exact I.
  - reflexivity.
Defined.

(** ** Printing an integer and reading it back *)

Lemma py_String (a : ascii) (s : string) :
  py (String a s) = Z.of_N (N_of_ascii a) :: py s.
Proof. done. Qed.

Lemma digits_value_of_uint_acc (d : Decimal.uint) (acc : positive) :
  digits_value (Z.pos acc) (py (NilEmpty.string_of_uint d))
  = Some (Z.pos (Pos.of_uint_acc d acc)).
Proof.
  revert acc.
  induction d as [|d IH|d IH|d IH|d IH|d IH|d IH|d IH|d IH|d IH|d IH];
    intros acc; [done|..];
    cbn [NilEmpty.string_of_uint Pos.of_uint_acc]; rewrite py_String;
    cbn [digits_value]; rewrite <- IH;
    match goal with
    | |- context [unicode_decimal ?c] =>
        let v := eval vm_compute in (unicode_decimal c) in
        change (unicode_decimal c) with v
    end; f_equal; lia.
Qed.

Lemma digits_value_of_uint (d : Decimal.uint) :
  digits_value 0 (py (NilEmpty.string_of_uint d)) = Some (Z.of_uint d).
Proof.
  unfold Z.of_uint.
  induction d as [|d IH|d IH|d IH|d IH|d IH|d IH|d IH|d IH|d IH|d IH];
    [done|..];
    cbn [NilEmpty.string_of_uint Pos.of_uint]; rewrite py_String;
    cbn [digits_value];
    match goal with
    | |- context [unicode_decimal ?c] =>
        let v := eval vm_compute in (unicode_decimal c) in
        change (unicode_decimal c) with v
    end; cbv iota; [exact IH|..];
    match goal with
    | |- digits_value ?k _ = _ =>
        let v := eval vm_compute in k in change k with v
    end; by rewrite digits_value_of_uint_acc.
Qed.

Lemma string_of_uint_decimal (d : Decimal.uint) :
  Forall (fun c => Py_UNICODE_ISDECIMAL c) (py (NilEmpty.string_of_uint d)).
Proof.
  induction d; cbn [NilEmpty.string_of_uint]; rewrite ?py_String;
    constructor; try done.
Qed.

(** What is left of [str(n)] when the non-digits are deleted is read as
    the absolute value of [n]. *)
Lemma int_of_cleaned_str_of_int (n : Z) :
  int_of_digits (filter (fun c => Py_UNICODE_ISDECIMAL c) (str_of_int n))
  = Some (Z.abs n).
Proof.
  assert (forall d v, Z.of_uint d = v -> (v = 0 -> d <> Decimal.Nil) ->
    int_of_digits (py (NilEmpty.string_of_uint d)) = Some v) as Hread.
  { intros d v Hv Hnil. pose proof (digits_value_of_uint d) as Hd.
    rewrite Hv in Hd. destruct (py (NilEmpty.string_of_uint d)) eqn:Hpy; [|done].
    injection Hd as <-. destruct d; try done. by destruct Hnil. }
  pose proof (DecimalZ.of_to n) as Hn. unfold str_of_int.
  destruct n as [|p|p]; cbn [Z.to_int NilEmpty.string_of_int Z.of_int] in *.
  - done.
  - rewrite filter_Forall_id by apply string_of_uint_decimal.
    apply Hread; [done|lia].
  - rewrite py_String. rewrite filter_cons_False by (vm_compute; tauto).
    rewrite filter_Forall_id by apply string_of_uint_decimal.
    apply Hread; [simpl; lia|simpl; lia].
Qed.

Lemma rows_mapM_Forall {A B} (f : A -> result B) (g : A -> B)
  (rows : list (label * A)) :
  Forall (fun r => f r.2 = Ok (g r.2)) rows ->
  rows_mapM f rows = Ok (rows_map g rows).
Proof.
  unfold rows_mapM, rows_map.
  induction 1 as [|[i a] rows Ha _ IH]; csimpl; [done|].
  simpl in Ha. rewrite Ha. simpl. by rewrite IH.
Qed.

(** X14: [to_integer] reads back what [str] prints, up to the sign: on the
    column of the decimal texts of integers whose absolute values fit the
    width, [to_integer] with [int] returns the column of the absolute
    values, under the same labels. *)
Theorem to_integer_reads_back_integers (h : heap) (series : loc) (bits : Z)
  (ns : list (label * Z)) :
  h !! series = Some (TextSeries (rows_map str_of_int ns)) ->
  Forall (fun r => Z.abs r.2 < 2 ^ (bits - 1)) ns ->
  returned (to_integer series (Some (np_int bits)) h)
  = Some (Ok (NumSeries (rows_map (fun n => NInt (Z.abs n)) ns))).
Proof.
  intros Hl Hns. rewrite (to_integer_returned _ _ _ _ Hl).
  unfold extract_numeric_with. rewrite !rows_mapM_map.
  rewrite (rows_mapM_Forall _ (fun n => NInt (Z.abs n))); [done|].
  eapply Forall_impl; [exact Hns|]. intros [i n] Hn. simpl in *.
  rewrite int_of_cleaned_str_of_int.
  replace (Z.abs n <? 2 ^ (bits - 1)) with true by (symmetry; by apply Z.ltb_lt).
  replace (- 2 ^ (bits - 1) <=? Z.abs n) with true; [done|].
  symmetry. apply Z.leb_le. pose proof (Z.pow_nonneg 2 (bits - 1)). lia.
Qed.

Lemma to_integer_reads_back_integers_witness :
  returned (to_integer 0%nat (Some (np_int 64))
              [TextSeries (rows_map str_of_int [(LInt 0, 120); (LStr (py "b"), -7)])])
  = Some (Ok (NumSeries
      (rows_map (fun n => NInt (Z.abs n)) [(LInt 0, 120); (LStr (py "b"), -7)]))).
Proof.
  apply (to_integer_reads_back_integers
           [TextSeries (rows_map str_of_int [(LInt 0, 120); (LStr (py "b"), -7)])]
           0%nat 64 [(LInt 0, 120); (LStr (py "b"), -7)] eq_refl).
  repeat constructor.
Defined.

(** ** A string as [keep], an integer as [keep_num] *)

Lemma startswith_take (x old : list Z) :
  startswith x old = true ->
  old = take (length old) x /\ (length old <= length x)%nat.
Proof.
  revert x. induction old as [|o old IH]; intros x; [by split; [|simpl; lia]|].
  destruct x as [|c x]; [done|]. cbn [startswith].
  intros [->%Z.eqb_eq [Heq Hlen]%IH]%andb_true_iff. simpl.
  split; [by rewrite <- Heq|lia].
Qed.

Lemma str_contains_pieces (x old : list Z) :
  str_contains x old = true -> old <> [] -> old ∈ pieces x.
Proof.
  intros Hin Hne.
  assert (exists i, (i < length x)%nat /\ old = take (length old) (drop i x)
                    /\ (length old <= length x)%nat) as (i & Hi & Hold & Hlen).
  { induction x as [|c x IH].
    - simpl in Hin. rewrite orb_false_r in Hin. by destruct old.
    - rewrite str_contains_cons in Hin.
      apply orb_true_iff in Hin as [Hs|Hx].
      + apply startswith_take in Hs as [Hs Hlen].
        exists 0%nat. simpl. split; [lia|]. by split.
      + destruct (IH Hx) as (i & Hi & Hold & Hlen).
        exists (S i). simpl. split; [lia|]. split; [done|lia]. }
  unfold pieces. apply list_elem_of_bind. exists i.
  split; [|apply elem_of_seq; lia].
  apply list_elem_of_bind. exists (length old).
  split; [by apply list_elem_of_singleton|].
  apply elem_of_seq. destruct old; [done|]. simpl in *. lia.
Qed.

Lemma str_replace_empty (x : list Z) : str_replace x [] [] = x.
Proof.
  unfold str_replace. rewrite app_nil_l.
  induction x as [|c x IH]; [done|]. rewrite bind_cons, IH. done.
Qed.

Lemma str_replace_piece (x k : list Z) :
  pieces_deleted_by_character x = true ->
  str_contains x k = true ->
  str_replace x k [] = filter (fun c => c ∉ k) x.
Proof.
  intros Hx Hin. destruct k as [|c k].
  - rewrite filter_all by (intros c; apply not_elem_of_nil).
    apply str_replace_empty.
  - unfold pieces_deleted_by_character in Hx.
    rewrite forallb_forall in Hx.
    eapply bool_decide_eq_true_1, Hx, list_elem_of_In.
    by apply str_contains_pieces.
Qed.

(** No character occurs twice in the punctuation or in the digits, so
    deleting a piece of either deletes the characters of the piece. *)
Lemma punctuation_pieces : pieces_deleted_by_character string_punctuation = true.
Proof. vm_compute. reflexivity. Qed.

Lemma digits_pieces : pieces_deleted_by_character digits = true.
Proof. vm_compute. reflexivity. Qed.

(** X8: A string given as [keep] that occurs in the punctuation as a piece of
    contiguous text keeps exactly its characters, and an integer other
    than 0 given as [keep_num] whose decimal text occurs in "0123456789"
    keeps exactly its digits (12 keeps 1 and 2, 789 keeps 7, 8 and 9):
    each element loses the punctuation, when [punct] is true, that is not
    in the string, and the digits that are not in the text of the
    integer. *)
Theorem to_text_keeps_contiguous_piece (h : heap) (series : loc)
  (punct : bool) (k : str) (n : Z) (rows : list (label * str)) :
  h !! series = Some (TextSeries rows) ->
  str_contains string_punctuation k = true ->
  str_contains digits (str_of_int n) = true ->
  n <> 0 ->
  let removal : gset Z :=
    (if punct then list_to_set string_punctuation ∖ list_to_set k else ∅)
    ∪ (list_to_set digits ∖ list_to_set (str_of_int n)) in
  returned (to_text series punct (KeepStr k) (KeepNumInt n) h)
  = Some (Ok (TextSeries (rows_map (filter (fun c => c ∉ removal)) rows))).
Proof.
  intros Hl Hk Hn Hn0 removal. rewrite (to_text_returned _ _ _ _ _ _ Hl).
  do 3 f_equal. apply rows_map_ext. intros x. apply list_filter_iff. intros c.
  assert (c ∈ punct_numbers punct (KeepStr k) (KeepNumInt n) <-> c ∈ removal)
    as Hiff; [|by rewrite Hiff].
  unfold punct_numbers, removal. cbv zeta.
  replace (keep_num_truthy (KeepNumInt n)) with true by (by destruct n).
  rewrite (str_replace_piece (py "0123456789") _ digits_pieces Hn).
  replace (if keep_truthy (KeepStr k) then str_replace string_punctuation k []
           else string_punctuation)
    with (filter (fun c => c ∉ k) string_punctuation).
  2:{ destruct k as [|k0 k]; [by rewrite filter_all by (intros ?; apply not_elem_of_nil)|].
      cbn [keep_truthy]. by rewrite (str_replace_piece _ _ punctuation_pieces Hk). }
  rewrite elem_of_union.
  destruct punct;
    rewrite ?elem_of_app, ?list_elem_of_filter, ?elem_of_difference,
      ?elem_of_list_to_set, ?elem_of_empty; unfold digits; tauto.
Qed.

Lemma to_text_keeps_contiguous_piece_witness :
  returned (to_text 0%nat true (KeepStr (py "()")) (KeepNumInt 12)
              [pd_Series [py "(12), 34!"]])
  = Some (Ok (TextSeries
      (rows_map
         (filter (fun c =>
            c ∉ ((list_to_set string_punctuation ∖ list_to_set (py "()"))
                 ∪ (list_to_set digits ∖ list_to_set (str_of_int 12))
                 : gset Z)))
         [(LInt 0, py "(12), 34!")]))).
Proof.
  assert (12 <> 0) as Hn by lia.
  exact (to_text_keeps_contiguous_piece [pd_Series [py "(12), 34!"]] 0%nat
           true (py "()") 12 [(LInt 0, py "(12), 34!")]
           eq_refl eq_refl eq_refl Hn).
Defined.

(** The witness column, evaluated. *)
Example to_text_keeps_parentheses_and_twelve :
  returned (to_text 0%nat true (KeepStr (py "()")) (KeepNumInt 12)
              [pd_Series [py "(12), 34!"]])
  = Some (Ok (pd_Series [py "(12) "])).
Proof. reflexivity. Qed.
